(** * fleet-telemetry: the streaming server (server/streaming/server.go)

    A shallow embedding of the HTTP handler that upgrades a request to a
    WebSocket, of the identity extraction from mTLS material, of the
    connectivity emitter and of the ack router, with the properties the
    specification states about them.

    Go values are modelled as follows.
    - A function returning [(T, error)] whose nil/nil behaviour matters
      returns a pair of options; a call that may panic returns an
      [Outcome].
    - Go maps ([DispatchRules], [reliableAckSources], the socket registry,
      HTTP headers, metric labels) are stdpp [gmap]s.
    - Effects (log lines, sink Produce calls, counter increments, registry
      operations, websocket writes) are events, emitted in order by a small
      monad that threads the registry and knows panics and [defer]. *)

From Stdlib Require Import String Ascii List ZArith Lia.
From stdpp Require Import base option list strings gmap.

Local Open Scope string_scope.
Local Open Scope list_scope.

(** ** Go values *)

Definition bytes := list Byte.byte.

(** [[]byte(s)] *)
Definition bytes_of (s : string) : bytes := list_byte_of_string s.

(** Go's [error] values.  [ErrText] is [errors.New(text)], a [fmt.Errorf]
    without [%w], or an error of a library; [ErrWrap prefix cause] is
    [fmt.Errorf(prefix + "%w", cause)], whose [cause] may be the nil error. *)
#[warnings="-register-all"] Inductive error : Type :=
| ErrText (text : string)
| ErrWrap (prefix : string) (cause : option error).

(** [err.Error()] *)
Fixpoint Error (e : error) : string :=
  match e with
  | ErrText text => text
  | ErrWrap prefix None => prefix +:+ "%!w(<nil>)"
  | ErrWrap prefix (Some cause) => prefix +:+ Error cause
  end.

(** Result of a call into a library that either succeeds or fails. *)
Inductive result (A : Type) : Type :=
| Ok (a : A)
| Err (e : error).
Arguments Ok {A} a.
Arguments Err {A} e.

(** A Go call either returns or panics. *)
Inductive Outcome (A : Type) : Type :=
| Returned (a : A)
| Panicked (reason : string).
Arguments Returned {A} a.
Arguments Panicked {A} reason.

Definition nil_dereference : string :=
  "invalid memory address or nil pointer dereference".
Definition index_out_of_range : string :=
  "index out of range [0] with length 0".

(** ** Certificates, requests, configuration *)

(** pkix.Name, as far as the server reads it *)
Record Name := { CommonName : string }.

(** x509.Certificate, as far as the server reads it; the validity bounds
    are kept in their printed form. *)
Record Certificate := {
  Subject : Name;
  Issuer : Name;
  NotBefore : string;
  NotAfter : string
}.

(** tls.ConnectionState *)
Record ConnectionState := {
  PeerCertificates : list Certificate;
  VerifiedChains : list (list Certificate)
}.

(** http.Request: [TLS] is a pointer, nil for a request without TLS state;
    [Header] maps a canonical header name to its values. *)
Record Request := {
  TLS : option ConnectionState;
  Header : gmap string (list string)
}.

(** [r.Header.Get(key)]: the first value of the header, the empty string
    when the header is absent. *)
Definition Header_Get (h : gmap string (list string)) (key : string) : string :=
  match h !! key with
  | Some (v :: _) => v
  | _ => ""
  end.

(** Modelled from the spec: config.TLSPassThrough is declared outside
    server.go; the configuration key tls_pass_through is one of absent,
    RFC9440, AWSApplicationLoadBalancer. *)
Inductive TLSPassThrough := RFC9440 | AWSApplicationLoadBalancer.

(** config.Config, as far as the server reads it; [TLSPassThrough] is a
    pointer, nil when no pass-through is configured. *)
Record Config := {
  cfg_TLSPassThrough : option TLSPassThrough;
  cfg_TransmitDecodedRecords : bool
}.

(** pem.Block *)
Record Block := {
  block_Type : string;
  block_Bytes : bytes
}.

(** telemetry.RequestIdentity *)
Record RequestIdentity := {
  DeviceID : string;
  SenderID : string
}.

(** ** Dispatch data *)

(** telemetry.Producer is an interface with one method the server calls,
    [Produce]; a producer is identified by its configured name. *)
Record Producer := { producer_name : string }.

(** telemetry.BinarySerializer as built by [NewBinarySerializer]. *)
Record BinarySerializer := {
  ser_RequestIdentity : option RequestIdentity;
  ser_DispatchRules : gmap string (list Producer)
}.

(** Modelled from the spec: telemetry.Record is declared outside server.go.
    The spec lists serializer_ref, raw_bytes, topic, tx_type and
    connection_id; [Serializer] is a pointer and may be nil. *)
Record Record_ := {
  Serializer : option BinarySerializer;
  RawBytes : bytes;
  Topic : string;
  TxType : string;
  SocketID : string
}.

(** Modelled from the spec: protos.ConnectivityEvent is declared outside
    server.go.  The spec and server.go name CONNECTED and DISCONNECTED; as
    a protobuf enum the type also has a zero value, UNKNOWN, which the
    type of [dispatchConnectivityEvent] admits. *)
Inductive ConnectivityEvent :=
| ConnectivityEvent_UNKNOWN
| ConnectivityEvent_CONNECTED
| ConnectivityEvent_DISCONNECTED.

(** timestamppb.Timestamp *)
Record Timestamp := { seconds : Z; nanos : Z }.

(** protos.VehicleConnectivity *)
Record VehicleConnectivity := {
  Vin : string;
  ConnectionId : string;
  NetworkInterface : string;
  vc_CreatedAt : Timestamp;
  Status : ConnectivityEvent
}.

(** messages.StreamMessage *)
Record StreamMessage := {
  TXID : bytes;
  sm_SenderID : bytes;
  sm_DeviceID : bytes;
  DeviceType : bytes;
  MessageTopic : bytes;
  Payload : bytes;
  sm_CreatedAt : Z
}.

(** ** Collaborators outside server.go

    The Go standard library, protobuf and the packages [messages] and
    [telemetry] are reached through this interface; the server's code is
    modelled for every implementation of it. *)
Class External := {
  (** base64.StdEncoding.DecodeString *)
  base64_DecodeString : string -> result bytes;
  (** url.QueryUnescape *)
  url_QueryUnescape : string -> result string;
  (** pem.Decode, first component: the first block, nil when there is none *)
  pem_Decode : bytes -> option Block;
  (** x509.ParseCertificates: zero or more certificates *)
  x509_ParseCertificates : bytes -> result (list Certificate);
  (** the mapping from an issuer common name to a client type *)
  client_type_of_issuer : string -> result string;
  (** proto.Marshal on a VehicleConnectivity *)
  proto_Marshal : VehicleConnectivity -> result bytes;
  (** StreamMessage.ToBytes *)
  ToBytes : StreamMessage -> result bytes;
  (** telemetry.NewRecord(serializer, message, socketID, transmitDecoded) *)
  NewRecord : BinarySerializer -> bytes -> string -> bool -> result Record_
}.

(** ** Identity extraction *)

Section Identity.
Context {E : External}.

(** Modelled from the spec: messages.CreateIdentityFromCert is not in
    server.go.  The client type is computed from the issuer common name
    (by a mapping defined elsewhere, which may reject the issuer) and the
    device id is the subject common name. *)
Definition CreateIdentityFromCert (cert : Certificate) : result (string * string) :=
  match client_type_of_issuer (CommonName (Issuer cert)) with
  | Ok clientType => Ok (clientType, CommonName (Subject cert))
  | Err e => Err e
  end.

(** The value a Go function returning a certificate pointer and an error
    returns: either may be nil. *)
Definition CertAndErr : Type := option Certificate * option error.

(** [certs[0]] on the slice the parser returned *)
Definition first_cert (certs : list Certificate) : Outcome CertAndErr :=
  match certs with
  | c :: _ => Returned (Some c, None)
  | [] => Panicked index_out_of_range
  end.

Definition extractCertRFC2440 (r : Request) : Outcome CertAndErr :=
  let raw := Header_Get (Header r) "Client-Cert-Chain" in
  if String.eqb raw "" then
    Returned (None, Some (ErrText "missing_certificate_error"))
  else
    match base64_DecodeString raw with
    | Err err =>
        Returned (None, Some (ErrWrap "failed to parse certificates: " (Some err)))
    | Ok rest =>
        match pem_Decode rest with
        | None =>
            (* err is still the nil error of the decoding above *)
            Returned (None, Some (ErrWrap "failed to parse certificates: " None))
        | Some block =>
            match x509_ParseCertificates (block_Bytes block) with
            | Err err =>
                Returned (None, Some (ErrWrap "failed to parse certificates: " (Some err)))
            | Ok certs => first_cert certs
            end
        end
    end.

Definition extractCertAWSALB (r : Request) : Outcome CertAndErr :=
  let raw := Header_Get (Header r) "X-Amzn-Mtls-Clientcert" in
  if String.eqb raw "" then
    Returned (None, Some (ErrText "missing_certificate_error"))
  else
    match url_QueryUnescape raw with
    | Err err =>
        Returned (None, Some (ErrWrap "failed to parse certificates: " (Some err)))
    | Ok rest =>
        match pem_Decode (bytes_of rest) with
        | None =>
            Returned (None, Some (ErrWrap "failed to parse certificates: " None))
        | Some block =>
            match x509_ParseCertificates (block_Bytes block) with
            | Err err =>
                Returned (None, Some (ErrWrap "failed to parse certificates: " (Some err)))
            | Ok certs => first_cert certs
            end
        end
    end.

Definition extractCertFromTLS (r : Request) : Outcome CertAndErr :=
  match TLS r with
  | None => Panicked nil_dereference
  | Some cs =>
      let nbCerts := length (PeerCertificates cs) in
      if Nat.eqb nbCerts 0 then
        Returned (None, Some (ErrText "missing_certificate_error"))
      else
        match PeerCertificates cs !! (nbCerts - 1)%nat with
        | Some c => Returned (Some c, None)
        | None => Panicked index_out_of_range
        end
  end.

Definition extractCertFunc : Type := Request -> Outcome CertAndErr.

(** A Go map from the pass-through mode to the extractor: a lookup. *)
Definition headerExtractConfigMap (mode : TLSPassThrough) : option extractCertFunc :=
  match mode with
  | RFC9440 => Some extractCertRFC2440
  | AWSApplicationLoadBalancer => Some extractCertAWSALB
  end.

Definition IdentityAndErr : Type := option RequestIdentity * option error.

(** The second half of [extractIdentity], from the chosen certificate on. *)
Definition identityFromCert (cert : Certificate) : IdentityAndErr :=
  match CreateIdentityFromCert cert with
  | Err err =>
      (None, Some (ErrText
         ("create_identity issuer: " +:+ CommonName (Issuer cert) +:+
          ", common_name: " +:+ CommonName (Subject cert) +:+
          ", err: " +:+ Error err)))
  | Ok (clientType, deviceID) =>
      (Some {| DeviceID := deviceID;
               SenderID := clientType +:+ "." +:+ deviceID |}, None)
  end.

(** The first half of [extractIdentity]: the extractor of the configured
    mode, applied to the request. *)
Definition extractCert (r : Request) (config : Config) : Outcome CertAndErr :=
  match cfg_TLSPassThrough config with
  | Some mode =>
      match headerExtractConfigMap mode with
      | Some f => f r
      | None => Panicked nil_dereference
      end
  | None => extractCertFromTLS r
  end.

Definition extractIdentity (r : Request) (config : Config) : Outcome IdentityAndErr :=
  match extractCert r config with
  | Panicked reason => Panicked reason
  | Returned (_, Some err) => Returned (None, Some err)
  | Returned (None, None) => Panicked nil_dereference
  | Returned (Some cert, None) => Returned (identityFromCert cert)
  end.

End Identity.

(** ** Effects: observable events, the registry, panics *)

(** websocket.Conn, an opaque handle *)
Record WebSocket := { ws_handle : nat }.

(** Modelled from the spec: SocketManager is declared in another file of
    the package.  Its state is uuid, identity, websocket,
    network_interface and transmit_decoded_records; the identity is a
    pointer and is nil when the handler was given none. *)
Record SocketManager := {
  UUID : string;
  requestIdentity : option RequestIdentity;
  ws : WebSocket;
  network_interface : string;
  transmitDecodedRecords : bool
}.

Definition GetNetworkInterface (sm : SocketManager) : string :=
  network_interface sm.

(** A value of a logrus.LogInfo map *)
Inductive LogValue :=
| LStr (s : string)
| LInt (n : Z)
| LEvent (e : ConnectivityEvent).

(** What the server does to the outside, in order. *)
Inductive Event :=
| EvLog (msg : string) (info : gmap string LogValue)
| EvErrorLog (msg : string) (err : error) (info : gmap string LogValue)
| EvReportError (err : error)
| EvUpgraded (conn : WebSocket)
| EvUpgradeRefused (err : error)
| EvRegisterSocket (sm : SocketManager)
| EvDeregisterSocket (sm : SocketManager)
| EvProduce (dispatcher : Producer) (record : Record_)
| EvReadLoopStart (uuid : string)
| EvReadLoopExit (uuid : string)
| EvCounterInc (counter : string) (labels : gmap string string)
| EvRespondToVehicle (sm : SocketManager) (record : Record_) (err : option error).

(** Modelled from the spec: SocketRegistry is declared in another file of
    the package.  It is a mapping from a uuid to a Socket Manager with
    register, deregister and lookup; lookup returns absent after
    deregister. *)
Abbreviation Registry := (gmap string SocketManager).

(** What a piece of the server's code does when run from a registry: it
    returns or panics, leaves a registry, and has emitted events. *)
Record Run (A : Type) := {
  outcome : Outcome A;
  final_registry : Registry;
  events : list Event
}.
Arguments outcome {A} _.
Arguments final_registry {A} _.
Arguments events {A} _.

Definition M (A : Type) : Type := Registry -> Run A.

Definition ret {A} (a : A) : M A := fun reg =>
  {| outcome := Returned a; final_registry := reg; events := [] |}.

Definition bind {A B} (m : M A) (k : A -> M B) : M B := fun reg =>
  let r1 := m reg in
  match outcome r1 with
  | Returned a =>
      let r2 := k a (final_registry r1) in
      {| outcome := outcome r2;
         final_registry := final_registry r2;
         events := events r1 ++ events r2 |}
  | Panicked reason =>
      {| outcome := Panicked reason;
         final_registry := final_registry r1;
         events := events r1 |}
  end.

Definition panic {A} (reason : string) : M A := fun reg =>
  {| outcome := Panicked reason; final_registry := reg; events := [] |}.

Definition lift {A} (o : Outcome A) : M A := fun reg =>
  {| outcome := o; final_registry := reg; events := [] |}.

Definition emit (e : Event) : M unit := fun reg =>
  {| outcome := Returned tt; final_registry := reg; events := [e] |}.

(** Go's [defer deferred] ahead of [body]: [deferred] runs when [body]
    returns and when it panics; a panic of [body] goes on afterwards, a
    panic of [deferred] replaces it. *)
Definition defer_ {A} (deferred : M unit) (body : M A) : M A := fun reg =>
  let r1 := body reg in
  let r2 := deferred (final_registry r1) in
  {| outcome := match outcome r2 with
                | Returned _ => outcome r1
                | Panicked reason => Panicked reason
                end;
     final_registry := final_registry r2;
     events := events r1 ++ events r2 |}.

#[global] Instance M_ret : MRet M := @ret.
#[global] Instance M_bind : MBind M := fun A B k m => bind m k.

Fixpoint for_each {A} (l : list A) (body : A -> M unit) : M unit :=
  match l with
  | [] => ret tt
  | x :: rest => body x;; for_each rest body
  end.

(** Modelled from the spec: SocketRegistry.RegisterSocket is declared in
    another file of the package; register binds the manager's uuid to the
    manager. *)
Definition RegisterSocket (sm : SocketManager) : M unit := fun reg =>
  {| outcome := Returned tt;
     final_registry := <[UUID sm := sm]> reg;
     events := [EvRegisterSocket sm] |}.

(** Modelled from the spec: SocketRegistry.DeregisterSocket is declared in
    another file of the package; after deregister the lookup of the uuid
    returns absent. *)
Definition DeregisterSocket (sm : SocketManager) : M unit := fun reg =>
  {| outcome := Returned tt;
     final_registry := delete (UUID sm) reg;
     events := [EvDeregisterSocket sm] |}.

(** Modelled from the spec: SocketRegistry.GetSocket is declared in
    another file of the package; lookup returns the live manager or
    absent (nil). *)
Definition GetSocket (uuid : string) : M (option SocketManager) := fun reg =>
  {| outcome := Returned (reg !! uuid); final_registry := reg; events := [] |}.

(** [dispatcher.Produce(record)] *)
Definition Produce (dispatcher : Producer) (record : Record_) : M unit :=
  emit (EvProduce dispatcher record).

(** ** The server *)

Definition connectitivityTopic : string := "connectivity".

(** adapter.CollectorOptions of a registered counter *)
Record Counter := {
  counter_Name : string;
  counter_Help : string;
  counter_Labels : list string
}.

Record ServerMetrics := {
  reliableAckCount : Counter;
  reliableAckMissCount : Counter
}.

Definition registerServerMetrics : ServerMetrics :=
  {| reliableAckCount :=
       {| counter_Name := "reliable_ack";
          counter_Help := "The number of reliable acknowledgements.";
          counter_Labels := ["record_type"; "dispatcher"] |};
     reliableAckMissCount :=
       {| counter_Name := "reliable_ack_miss";
          counter_Help := "The number of missing reliable acknowledgements.";
          counter_Labels := ["record_type"; "dispatcher"] |} |}.

Definition serverMetricsRegistry : ServerMetrics := registerServerMetrics.

(** [counter.Inc(labels)] *)
Definition Inc (c : Counter) (labels : gmap string string) : M unit :=
  emit (EvCounterInc (counter_Name c) labels).

(** The fields of [Server] that are read-only after [InitServer]; the
    registry and the ack channel are state. *)
Record Server := {
  DispatchRules : gmap string (list Producer);
  reliableAckSources : gmap string string
}.

(** What the peer and the clock do during one invocation of the handler.
    A failed upgrade comes with its error and with whether the error is a
    websocket.HandshakeError, the type the handler tests for. *)
Inductive UpgradeResult :=
| UpgradeOk (conn : WebSocket)
| UpgradeErr (err : error) (isHandshakeError : bool).

Inductive Frame :=
| BinaryFrame (data : bytes)
| OtherFrame.

Inductive LoopEnd :=
| LoopReturns
| LoopPanics (reason : string).

Record Scenario := {
  sc_upgrade : UpgradeResult;
  sc_uuid : string;
  sc_network_interface : string;
  sc_connected_at : Timestamp;
  sc_frames : list Frame;
  sc_loop_end : LoopEnd;
  sc_disconnected_at : Timestamp
}.

Section Server.
Context {E : External}.

(** [strings.Join(elems, sep)] *)
Fixpoint strings_Join (elems : list string) (sep : string) : string :=
  match elems with
  | [] => ""
  | [e] => e
  | e :: rest => e +:+ sep +:+ strings_Join rest sep
  end.

Definition Log (msg : string) (info : gmap string LogValue) : M unit :=
  emit (EvLog msg info).

Definition ErrorLog (msg : string) (err : error) (info : gmap string LogValue) : M unit :=
  emit (EvErrorLog msg err info).

(** The loop [for idx, chain := range chains] of [ServeBinaryWs]. *)
Fixpoint log_chains (idx : nat) (chains : list (list Certificate)) : M unit :=
  match chains with
  | [] => ret tt
  | chain :: rest =>
      let chainCommonName := map (fun cert => CommonName (Subject cert)) chain in
      Log "chain_subject_common_name"
        {[ "idx" := LInt (Z.of_nat idx);
           "common_name_chain" := LStr (strings_Join chainCommonName "|") ]};;
      log_chains (S idx) rest
  end.

(** The first statement of the handler: print the client certificates if
    available. *)
Definition log_client_certificate (r : Request) : M unit :=
  match TLS r with
  | Some cs =>
      match PeerCertificates cs with
      | clientCert :: _ =>
          Log "client_certificate"
            {[ "Subject" := LStr (CommonName (Subject clientCert));
               "Issuer" := LStr (CommonName (Issuer clientCert));
               "NotBefore" := LStr (NotBefore clientCert);
               "NotAfter" := LStr (NotAfter clientCert) ]};;
          let chains := VerifiedChains cs in
          Log "chains_size" {[ "chains_size" := LInt (Z.of_nat (length chains)) ]};;
          log_chains 0 chains
      | [] => Log "client_certificate_not_found" ∅
      end
  | None => Log "client_certificate_not_found" ∅
  end.

(** [upgrader.Upgrade] is gorilla/websocket's and answers the peer
    itself.  It completes the handshake; or it refuses the request,
    replies with an HTTP error and returns a HandshakeError; or it fails
    after it has taken the connection over, closes it without a reply and
    returns an error of another type.  [EvUpgradeRefused] is the HTTP
    error reply, so it is emitted for a HandshakeError only. *)
Definition promoteToWebsocket (sc : Scenario) : M (option WebSocket) :=
  match sc_upgrade sc with
  | UpgradeErr err isHandshakeError =>
      (if isHandshakeError then emit (EvUpgradeRefused err) else ret tt);;
      emit (EvReportError err);;
      (if isHandshakeError then ret tt
       else ErrorLog "websocket_promotion_error" err ∅);;
      ret None
  | UpgradeOk conn =>
      emit (EvUpgraded conn);;
      ret (Some conn)
  end.

(** The [StreamMessage] literal of [dispatchConnectivityEvent]. *)
Definition connectivityStreamMessage (sm : SocketManager) (rid : RequestIdentity)
    (connectivityMessage : VehicleConnectivity) (payload : bytes) : StreamMessage :=
  {| TXID := bytes_of (UUID sm);
     sm_SenderID := bytes_of (SenderID rid);
     sm_DeviceID := bytes_of (DeviceID rid);
     DeviceType := bytes_of "vehicle_device";
     MessageTopic := bytes_of connectitivityTopic;
     Payload := payload;
     (* uint32 of the Unix seconds *)
     sm_CreatedAt := (seconds (vc_CreatedAt connectivityMessage) mod 2 ^ 32)%Z |}.

(** [now] is the reading of [timestamppb.Now()]. *)
Definition dispatchConnectivityEvent (s : Server) (sm : SocketManager)
    (serializer : BinarySerializer) (event : ConnectivityEvent) (now : Timestamp)
    : M (option error) :=
  match DispatchRules s !! connectitivityTopic with
  | None => ret None
  | Some connectivityDispatcher =>
      match requestIdentity sm with
      | None => panic nil_dereference
      | Some rid =>
          let connectivityMessage :=
            {| Vin := DeviceID rid;
               ConnectionId := UUID sm;
               NetworkInterface := GetNetworkInterface sm;
               vc_CreatedAt := now;
               Status := event |} in
          match proto_Marshal connectivityMessage with
          | Err err => ret (Some err)
          | Ok payload =>
              let streamMessage :=
                connectivityStreamMessage sm rid connectivityMessage payload in
              match ToBytes streamMessage with
              | Err err => ret (Some err)
              | Ok message =>
                  match NewRecord serializer message (UUID sm) (transmitDecodedRecords sm) with
                  | Err err => ret (Some err)
                  | Ok record =>
                      for_each connectivityDispatcher
                        (fun dispatcher => Produce dispatcher record);;
                      ret None
                  end
              end
          end
      end
  end.

(** The error branch of register and deregister: log, reading the device
    id through the identity pointer. *)
Definition log_connectivity_error (msg : string) (sm : SocketManager)
    (event : ConnectivityEvent) (err : option error) : M unit :=
  match err with
  | None => ret tt
  | Some err =>
      match requestIdentity sm with
      | None => panic nil_dereference
      | Some rid =>
          ErrorLog msg err
            {[ "deviceID" := LStr (DeviceID rid); "event" := LEvent event ]}
      end
  end.

Definition registerSocket (s : Server) (sm : SocketManager)
    (serializer : BinarySerializer) (now : Timestamp) : M unit :=
  RegisterSocket sm;;
  let event := ConnectivityEvent_CONNECTED in
  err ← dispatchConnectivityEvent s sm serializer event now;
  log_connectivity_error "connectivity_registeration_error" sm event err.

Definition deregisterSocket (s : Server) (sm : SocketManager)
    (serializer : BinarySerializer) (now : Timestamp) : M unit :=
  DeregisterSocket sm;;
  let event := ConnectivityEvent_DISCONNECTED in
  err ← dispatchConnectivityEvent s sm serializer event now;
  log_connectivity_error "connectivity_deregisteration_error" sm event err.

Definition NewBinarySerializer (requestIdentity : option RequestIdentity)
    (dispatchRules : gmap string (list Producer)) : BinarySerializer :=
  {| ser_RequestIdentity := requestIdentity; ser_DispatchRules := dispatchRules |}.

(** Modelled from the spec: NewSocketManager is declared in another file
    of the package.  The manager owns the upgraded websocket, a freshly
    generated UUID and the identity it is given. *)
Definition NewSocketManager (sc : Scenario) (requestIdentity : option RequestIdentity)
    (conn : WebSocket) (config : Config) : SocketManager :=
  {| UUID := sc_uuid sc;
     requestIdentity := requestIdentity;
     ws := conn;
     network_interface := sc_network_interface sc;
     transmitDecodedRecords := cfg_TransmitDecodedRecords config |}.

(** Modelled from the spec: the Dispatch Engine.  Resolve the producers of
    the record's topic; if absent, drop the record; otherwise call Produce
    on each producer in the configured order. *)
Definition Dispatch (serializer : BinarySerializer) (record : Record_) : M unit :=
  match ser_DispatchRules serializer !! Topic record with
  | None => ret tt
  | Some producers => for_each producers (fun producer => Produce producer record)
  end.

(** Modelled from the spec: the body of the read loop of ProcessTelemetry,
    declared in another file of the package.  A binary frame is decoded
    with the serializer and the record handed to the Dispatch Engine;
    non-binary frames and decode errors are skipped. *)
Definition process_frame (sm : SocketManager) (serializer : BinarySerializer)
    (frame : Frame) : M unit :=
  match frame with
  | OtherFrame => ret tt
  | BinaryFrame data =>
      match NewRecord serializer data (UUID sm) (transmitDecodedRecords sm) with
      | Err _ => ret tt
      | Ok record => Dispatch serializer record
      end
  end.

(** Modelled from the spec: ProcessTelemetry is declared in another file
    of the package.  It runs the read loop over the frames the peer sends
    until the connection closes or a read fails; [loop_end] tells whether
    it then returns or a panic leaves it. *)
Definition ProcessTelemetry (sm : SocketManager) (serializer : BinarySerializer)
    (frames : list Frame) (loop_end : LoopEnd) : M unit :=
  emit (EvReadLoopStart (UUID sm));;
  for_each frames (process_frame sm serializer);;
  emit (EvReadLoopExit (UUID sm));;
  match loop_end with
  | LoopReturns => ret tt
  | LoopPanics reason => panic reason
  end.

Definition ServeBinaryWs (s : Server) (config : Config) (sc : Scenario)
    (r : Request) : M unit :=
  log_client_certificate r;;
  promoted ← promoteToWebsocket sc;
  match promoted with
  | None => ret tt
  | Some conn =>
      extracted ← lift (extractIdentity r config);
      let '(requestIdentity, err) := extracted in
      match err with
      | Some err => ErrorLog "extract_sender_id_err" err ∅
      | None => ret tt
      end;;
      let binarySerializer := NewBinarySerializer requestIdentity (DispatchRules s) in
      let socketManager := NewSocketManager sc requestIdentity conn config in
      registerSocket s socketManager binarySerializer (sc_connected_at sc);;
      defer_ (deregisterSocket s socketManager binarySerializer (sc_disconnected_at sc))
        (ProcessTelemetry socketManager binarySerializer (sc_frames sc) (sc_loop_end sc))
  end.

(** Modelled from the spec: respondToVehicle is declared in another file
    of the package; it writes an ACK frame (a NACK when the error is set)
    to the manager's websocket. *)
Definition respondToVehicle (socket : SocketManager) (record : Record_)
    (err : option error) : M unit :=
  emit (EvRespondToVehicle socket record err).

(** One iteration of the loop of [handleAcks]. *)
Definition handleAck (s : Server) (record : Record_) : M unit :=
  let reliableAckSource := default "" (reliableAckSources s !! TxType record) in
  match Serializer record with
  | Some _ =>
      socket ← GetSocket (SocketID record);
      match socket with
      | Some socket =>
          Inc (reliableAckCount serverMetricsRegistry)
            {[ "record_type" := TxType record; "dispatcher" := reliableAckSource ]};;
          respondToVehicle socket record None
      | None =>
          Inc (reliableAckMissCount serverMetricsRegistry)
            {[ "record_type" := TxType record; "dispatcher" := reliableAckSource ]}
      end
  | None => ret tt
  end.

(** [for record := range s.ackChan], on the records the channel delivers. *)
Definition handleAcks (s : Server) (ackChan : list Record_) : M unit :=
  for_each ackChan (handleAck s).

End Server.

(** ** Properties named by the specification *)

(** The two kinds of identity failure, read off the error's message. *)
Definition missing_certificate (e : error) : Prop :=
  Error e = "missing_certificate_error".

Definition parse_certificate (e : error) : Prop :=
  exists detail, Error e = "failed to parse certificates: " +:+ detail.

(** An extractor that returns hands back a certificate or an error, never
    neither and never both. *)
Definition cert_xor_err (res : CertAndErr) : Prop :=
  match res with
  | (Some _, None) | (None, Some _) => True
  | _ => False
  end.


(** [record] is the Record of the connectivity event of [sm] with
    [status] read at [now]: the payload is marshalled, put in the envelope,
    the envelope is serialized and decoded by the serializer. *)
Definition wraps_connectivity {E : External} (sm : SocketManager) (serializer : BinarySerializer)
    (status : ConnectivityEvent) (now : Timestamp) (record : Record_) : Prop :=
  exists rid payload message,
    let connectivityMessage :=
      {| Vin := DeviceID rid;
         ConnectionId := UUID sm;
         NetworkInterface := GetNetworkInterface sm;
         vc_CreatedAt := now;
         Status := status |} in
    requestIdentity sm = Some rid /\
    proto_Marshal connectivityMessage = Ok payload /\
    ToBytes (connectivityStreamMessage sm rid connectivityMessage payload) = Ok message /\
    NewRecord serializer message (UUID sm) (transmitDecodedRecords sm) = Ok record.

(** The wrapping of a connectivity event in the words of the
    specification: [record] comes from a StreamMessage with topic
    connectivity and device type vehicle_device whose payload is the
    serialized VehicleConnectivity of the connection, with the sender and
    device ids of the connection's identity. *)
Definition carries_connectivity {E : External} (sm : SocketManager)
    (serializer : BinarySerializer) (status : ConnectivityEvent) (now : Timestamp)
    (record : Record_) : Prop :=
  exists rid connectivityMessage payload streamMessage message,
    requestIdentity sm = Some rid /\
    Vin connectivityMessage = DeviceID rid /\
    ConnectionId connectivityMessage = UUID sm /\
    NetworkInterface connectivityMessage = GetNetworkInterface sm /\
    vc_CreatedAt connectivityMessage = now /\
    Status connectivityMessage = status /\
    (status = ConnectivityEvent_CONNECTED \/ status = ConnectivityEvent_DISCONNECTED) /\
    proto_Marshal connectivityMessage = Ok payload /\
    MessageTopic streamMessage = bytes_of "connectivity" /\
    DeviceType streamMessage = bytes_of "vehicle_device" /\
    Payload streamMessage = payload /\
    sm_SenderID streamMessage = bytes_of (SenderID rid) /\
    sm_DeviceID streamMessage = bytes_of (DeviceID rid) /\
    ToBytes streamMessage = Ok message /\
    NewRecord serializer message (UUID sm) (transmitDecodedRecords sm) = Ok record.

(** The events of one connectivity emission: nothing when the topic is not
    configured; one error log when the Record cannot be built; otherwise
    the Produce of that one Record to each producer of the connectivity
    topic, in the configured order. *)
Inductive connectivity_emission {E : External} (s : Server) (sm : SocketManager)
    (serializer : BinarySerializer) (status : ConnectivityEvent) (now : Timestamp)
    : list Event -> Prop :=
| emission_skipped :
    DispatchRules s !! connectitivityTopic = None ->
    connectivity_emission s sm serializer status now []
| emission_failed producers rid msg err info :
    DispatchRules s !! connectitivityTopic = Some producers ->
    requestIdentity sm = Some rid ->
    (forall record, ~ wraps_connectivity sm serializer status now record) ->
    connectivity_emission s sm serializer status now [EvErrorLog msg err info]
| emission_produced producers record :
    DispatchRules s !! connectitivityTopic = Some producers ->
    wraps_connectivity sm serializer status now record ->
    connectivity_emission s sm serializer status now
      (map (fun dispatcher => EvProduce dispatcher record) producers).

(** The calls of Produce among the events, in order. *)
Definition produces (evs : list Event) : list (Producer * Record_) :=
  omap (fun e => match e with
                 | EvProduce dispatcher record => Some (dispatcher, record)
                 | _ => None
                 end) evs.

(** A short name of an event, to read a run. *)
Definition kind (e : Event) : string :=
  match e with
  | EvLog msg _ => "log " +:+ msg
  | EvErrorLog msg err _ => "error " +:+ msg +:+ ": " +:+ Error err
  | EvReportError _ => "report"
  | EvUpgraded _ => "upgraded"
  | EvUpgradeRefused _ => "refused"
  | EvRegisterSocket sm => "register " +:+ UUID sm
  | EvDeregisterSocket sm => "deregister " +:+ UUID sm
  | EvProduce dispatcher record =>
      "produce " +:+ Topic record +:+ " to " +:+ producer_name dispatcher
  | EvReadLoopStart _ => "loop starts"
  | EvReadLoopExit _ => "loop exits"
  | EvCounterInc counter _ => "inc " +:+ counter
  | EvRespondToVehicle sm _ _ => "respond " +:+ UUID sm
  end.

(** Events that only write to the log. *)
Definition is_log (e : Event) : Prop :=
  match e with
  | EvLog _ _ | EvErrorLog _ _ _ => True
  | _ => False
  end.

(** Events of the read loop of [sm]: each is the Produce of a Record
    decoded from a frame of that connection. *)
Definition is_telemetry {E : External} (sm : SocketManager) (serializer : BinarySerializer)
    (e : Event) : Prop :=
  exists producer record data,
    e = EvProduce producer record /\
    NewRecord serializer data (UUID sm) (transmitDecodedRecords sm) = Ok record.

(** [m] behaves the same from every registry: it ends with outcome [o],
    has emitted [evs] and has changed the registry by [f]. *)
Definition runs {A} (m : M A) (f : Registry -> Registry) (o : Outcome A)
    (evs : list Event) : Prop :=
  forall reg, m reg = {| outcome := o; final_registry := f reg; events := evs |}.

(** Register and deregister do not panic: the manager has an identity, or
    the connectivity topic is not configured. *)
Definition can_emit (s : Server) (sm : SocketManager) : Prop :=
  is_Some (requestIdentity sm) \/ DispatchRules s !! connectitivityTopic = None.

(** What the handler returns once the read loop has ended. *)
Definition loop_outcome (loop_end : LoopEnd) : Outcome unit :=
  match loop_end with
  | LoopReturns => Returned tt
  | LoopPanics reason => Panicked reason
  end.

(** The log line of a failed identity extraction, if any. *)
Definition identity_error_log (err : option error) : list Event :=
  match err with
  | Some err => [EvErrorLog "extract_sender_id_err" err ∅]
  | None => []
  end.

(** ** Test doubles and scenarios *)

Definition LF : string := String "010"%char EmptyString.

(** A PEM block of type CERTIFICATE with an empty body, its base64 form
    and its URL-escaped form. *)
Definition empty_pem : string :=
  "-----BEGIN CERTIFICATE-----" +:+ LF +:+ "-----END CERTIFICATE-----" +:+ LF.
Definition empty_pem_base64 : string :=
  "LS0tLS1CRUdJTiBDRVJUSUZJQ0FURS0tLS0tCi0tLS0tRU5EIENFUlRJRklDQVRFLS0tLS0K".
Definition empty_pem_escaped : string :=
  "-----BEGIN%20CERTIFICATE-----%0A-----END%20CERTIFICATE-----%0A".

(** A vehicle certificate and stand-ins for its encodings. *)
Definition vehicle_cert : Certificate :=
  {| Subject := {| CommonName := "VIN123" |};
     Issuer := {| CommonName := "vehicle_device" |};
     NotBefore := "2024-01-01 00:00:00 +0000 UTC";
     NotAfter := "2034-01-01 00:00:00 +0000 UTC" |}.
Definition issuing_ca : Certificate :=
  {| Subject := {| CommonName := "vehicle_device" |};
     Issuer := {| CommonName := "root" |};
     NotBefore := "2020-01-01 00:00:00 +0000 UTC";
     NotAfter := "2040-01-01 00:00:00 +0000 UTC" |}.
Definition vehicle_der : string := "der(VIN123)".
Definition vehicle_pem : string := "pem(VIN123)".
Definition vehicle_pem_base64 : string := "base64(pem(VIN123))".
Definition vehicle_pem_escaped : string := "escaped(pem(VIN123))".

(** The text before the first colon of [s], and the text after it. *)
Fixpoint cut_colon (s : string) : option (string * string) :=
  match s with
  | EmptyString => None
  | String c rest =>
      if Ascii.eqb c ":"%char then Some ("", rest)
      else match cut_colon rest with
           | Some (before, after) => Some (String c before, after)
           | None => None
           end
  end.

Definition status_text (e : ConnectivityEvent) : string :=
  match e with
  | ConnectivityEvent_UNKNOWN => "UNKNOWN"
  | ConnectivityEvent_CONNECTED => "CONNECTED"
  | ConnectivityEvent_DISCONNECTED => "DISCONNECTED"
  end.

(** A test double of the collaborators.  On the empty PEM block it answers
    as the Go library does: the block decodes, its body is empty, and the
    certificate parser returns no certificate and no error on empty input.
    Certificates and messages have a toy encoding: a message is its topic,
    a colon, and its payload. *)
#[global] Instance testExternal : External := {|
  base64_DecodeString raw :=
    if String.eqb raw empty_pem_base64 then Ok (bytes_of empty_pem)
    else if String.eqb raw vehicle_pem_base64 then Ok (bytes_of vehicle_pem)
    else Err (ErrText "illegal base64 data at input byte 0");
  url_QueryUnescape raw :=
    if String.eqb raw empty_pem_escaped then Ok empty_pem
    else if String.eqb raw vehicle_pem_escaped then Ok vehicle_pem
    else Err (ErrText "invalid URL escape");
  pem_Decode data :=
    let text := string_of_list_byte data in
    if String.eqb text empty_pem
    then Some {| block_Type := "CERTIFICATE"; block_Bytes := [] |}
    else if String.eqb text vehicle_pem
    then Some {| block_Type := "CERTIFICATE"; block_Bytes := bytes_of vehicle_der |}
    else None;
  x509_ParseCertificates der :=
    let text := string_of_list_byte der in
    if String.eqb text "" then Ok []
    else if String.eqb text vehicle_der then Ok [vehicle_cert; issuing_ca]
    else Err (ErrText "x509: malformed certificate");
  client_type_of_issuer issuer :=
    if String.eqb issuer "" then Err (ErrText "unknown issuer") else Ok issuer;
  proto_Marshal vc :=
    Ok (bytes_of (Vin vc +:+ "/" +:+ ConnectionId vc +:+ "/" +:+ status_text (Status vc)));
  ToBytes msg :=
    Ok (MessageTopic msg ++ bytes_of ":" ++ Payload msg);
  NewRecord serializer message socketID _ :=
    match cut_colon (string_of_list_byte message) with
    | Some (topic, _) =>
        Ok {| Serializer := Some serializer;
              RawBytes := message;
              Topic := topic;
              TxType := topic;
              SocketID := socketID |}
    | None => Err (ErrText "decode_error")
    end
|}.

Definition kafka_stub : Producer := {| producer_name := "kafka" |}.
Definition log_stub : Producer := {| producer_name := "logger" |}.

(** Dispatch rules with and without the connectivity topic. *)
Definition server_with_connectivity : Server :=
  {| DispatchRules := {[ "V" := [kafka_stub; log_stub]; "connectivity" := [log_stub] ]};
     reliableAckSources := {[ "V" := "kafka" ]} |}.
Definition server_without_connectivity : Server :=
  {| DispatchRules := {[ "V" := [kafka_stub] ]};
     reliableAckSources := {[ "V" := "kafka" ]} |}.

Definition direct_tls : Config :=
  {| cfg_TLSPassThrough := None; cfg_TransmitDecodedRecords := false |}.
Definition rfc9440_mode : Config :=
  {| cfg_TLSPassThrough := Some RFC9440; cfg_TransmitDecodedRecords := false |}.
Definition alb_mode : Config :=
  {| cfg_TLSPassThrough := Some AWSApplicationLoadBalancer;
     cfg_TransmitDecodedRecords := false |}.

(** Requests: a vehicle over direct TLS, a peer with an empty chain, a
    request behind a proxy without certificate header, with a header that
    is not base64, with the vehicle's header, with the empty PEM block. *)
Definition vehicle_request : Request :=
  {| TLS := Some {| PeerCertificates := [issuing_ca; vehicle_cert];
                    VerifiedChains := [[vehicle_cert; issuing_ca]] |};
     Header := ∅ |}.
Definition empty_chain_request : Request :=
  {| TLS := Some {| PeerCertificates := []; VerifiedChains := [] |}; Header := ∅ |}.
Definition bare_request : Request :=
  {| TLS := None; Header := ∅ |}.
Definition garbled_request : Request :=
  {| TLS := None; Header := {[ "Client-Cert-Chain" := ["%%%"] ]} |}.
Definition proxied_vehicle_request : Request :=
  {| TLS := None; Header := {[ "Client-Cert-Chain" := [vehicle_pem_base64] ]} |}.
Definition empty_block_request : Request :=
  {| TLS := None; Header := {[ "Client-Cert-Chain" := [empty_pem_base64] ]} |}.
Definition empty_block_alb_request : Request :=
  {| TLS := None; Header := {[ "X-Amzn-Mtls-Clientcert" := [empty_pem_escaped] ]} |}.

(** One connection that sends one frame of topic V and closes. *)
Definition one_frame : Scenario :=
  {| sc_upgrade := UpgradeOk {| ws_handle := 1 |};
     sc_uuid := "uuid-1";
     sc_network_interface := "wifi";
     sc_connected_at := {| seconds := 1700000000; nanos := 0 |};
     sc_frames := [BinaryFrame (bytes_of "V:T1")];
     sc_loop_end := LoopReturns;
     sc_disconnected_at := {| seconds := 1700000060; nanos := 0 |} |}.

(** The same connection, whose read loop panics after the frame. *)
Definition one_frame_then_panic : Scenario :=
  {| sc_upgrade := UpgradeOk {| ws_handle := 1 |};
     sc_uuid := "uuid-1";
     sc_network_interface := "wifi";
     sc_connected_at := {| seconds := 1700000000; nanos := 0 |};
     sc_frames := [BinaryFrame (bytes_of "V:T1")];
     sc_loop_end := LoopPanics "read loop";
     sc_disconnected_at := {| seconds := 1700000060; nanos := 0 |} |}.

Definition vehicle_identity : RequestIdentity :=
  {| DeviceID := "VIN123"; SenderID := "vehicle_device.VIN123" |}.

(** A peer whose upgrade is refused with a handshake error: it gets the
    upgrader's HTTP error. *)
Definition refused_upgrade : Scenario :=
  {| sc_upgrade := UpgradeErr (ErrText "websocket: not a websocket handshake") true;
     sc_uuid := "uuid-2";
     sc_network_interface := "";
     sc_connected_at := {| seconds := 1700000000; nanos := 0 |};
     sc_frames := [];
     sc_loop_end := LoopReturns;
     sc_disconnected_at := {| seconds := 1700000000; nanos := 0 |} |}.

Definition socket_1 : SocketManager :=
  {| UUID := "uuid-1";
     requestIdentity := Some vehicle_identity;
     ws := {| ws_handle := 1 |};
     network_interface := "wifi";
     transmitDecodedRecords := false |}.

Definition serializer_1 : BinarySerializer :=
  NewBinarySerializer (requestIdentity socket_1) (DispatchRules server_with_connectivity).

(** The CONNECTED record of socket_1 in the toy encoding. *)
Definition connected_record : Record_ :=
  {| Serializer := Some serializer_1;
     RawBytes := bytes_of "connectivity:VIN123/uuid-1/CONNECTED";
     Topic := "connectivity";
     TxType := "connectivity";
     SocketID := "uuid-1" |}.

(** The DISCONNECTED record of socket_1 in the toy encoding. *)
Definition disconnected_record : Record_ :=
  {| Serializer := Some serializer_1;
     RawBytes := bytes_of "connectivity:VIN123/uuid-1/DISCONNECTED";
     Topic := "connectivity";
     TxType := "connectivity";
     SocketID := "uuid-1" |}.

(** The serializer of socket_1 on the server without connectivity topic,
    and the telemetry record of the frame of [one_frame] there. *)
Definition serializer_2 : BinarySerializer :=
  NewBinarySerializer (requestIdentity socket_1) (DispatchRules server_without_connectivity).

Definition telemetry_record : Record_ :=
  {| Serializer := Some serializer_2;
     RawBytes := bytes_of "V:T1";
     Topic := "V";
     TxType := "V";
     SocketID := "uuid-1" |}.

(** An acknowledged record whose tx_type has no reliable-ack source. *)
Definition unlisted_record : Record_ :=
  {| Serializer := Some serializer_1;
     RawBytes := bytes_of "alerts:T2";
     Topic := "alerts";
     TxType := "alerts";
     SocketID := "uuid-1" |}.

(** An acknowledged record of topic V of connection uuid-1. *)
Definition acked_record : Record_ :=
  {| Serializer := Some serializer_1;
     RawBytes := bytes_of "V:T1";
     Topic := "V";
     TxType := "V";
     SocketID := "uuid-1" |}.

(** ** The logging wrapper *)

(** http.Request, the fields [serveHTTPWithLogs] reads: the method, the
    path of the URL and the remote address. *)
Record RequestLine := {
  Method : string;
  URL_Path : string;
  RemoteAddr : string
}.

(** What the uuid generator and the clock give during one request: the
    fresh uuid and the milliseconds elapsed when the handler is back. *)
Record LogScenario := {
  log_uuid : string;
  log_duration_ms : Z
}.

(** [logger.ActivityLog(msg, info)]: a line of the log. *)
Definition ActivityLog (msg : string) (info : gmap string LogValue) : M unit :=
  emit (EvLog msg info).

(** [serveHTTPWithLogs(h, logger)] applied to a request; [h] is the wrapped
    handler applied to the same request.  The map written at request_end is
    the map of request_start with duration_ms added. *)
Definition serveHTTPWithLogs (h : M unit) (line : RequestLine) (lsc : LogScenario)
    : M unit :=
  let urlPath := URL_Path line in
  let uuidStr := log_uuid lsc in
  let requestLogInfo : gmap string LogValue :=
    {[ "uuid" := LStr uuidStr;
       "method" := LStr (Method line);
       "urlPath" := LStr urlPath;
       "remote_ip" := LStr (RemoteAddr line) ]} in
  ActivityLog "request_start" requestLogInfo;;
  h;;
  let requestLogInfo := <["duration_ms" := LInt (log_duration_ms lsc)]> requestLogInfo in
  ActivityLog "request_end" requestLogInfo.

(** ** Reading a run *)

(** The calls of respondToVehicle among the events, in order. *)
Definition responses (evs : list Event)
    : list (SocketManager * Record_ * option error) :=
  omap (fun e => match e with
                 | EvRespondToVehicle socket record err => Some (socket, record, err)
                 | _ => None
                 end) evs.

(** The counter increments among the events, in order. *)
Definition increments (evs : list Event) : list (string * gmap string string) :=
  omap (fun e => match e with
                 | EvCounterInc counter labels => Some (counter, labels)
                 | _ => None
                 end) evs.

(** The records of the ack channel that have a serializer attached. *)
Definition acknowledged (ackChan : list Record_) : list Record_ :=
  omap (fun record => match Serializer record with
                      | Some _ => Some record
                      | None => None
                      end) ackChan.

(** The write an acknowledged record leads to in a registry, if any. *)
Definition routed (reg : Registry) (record : Record_)
    : option (SocketManager * Record_ * option error) :=
  match Serializer record with
  | Some _ =>
      match reg !! SocketID record with
      | Some socket => Some (socket, record, None)
      | None => None
      end
  | None => None
  end.

(** The counter an acknowledged record increments in a registry. *)
Definition counter_for (reg : Registry) (record : Record_) : string :=
  match reg !! SocketID record with
  | Some _ => counter_Name (reliableAckCount serverMetricsRegistry)
  | None => counter_Name (reliableAckMissCount serverMetricsRegistry)
  end.

(** The labels of the increment of an acknowledged record. *)
Definition ack_labels (s : Server) (record : Record_) : gmap string string :=
  {[ "record_type" := TxType record;
     "dispatcher" := default "" (reliableAckSources s !! TxType record) ]}.

(** The line the handler logs for the verified chain at position [idx]. *)
Definition chain_log (idx : nat) (chain : list Certificate) : Event :=
  EvLog "chain_subject_common_name"
    {[ "idx" := LInt (Z.of_nat idx);
       "common_name_chain" :=
         LStr (strings_Join (map (fun cert => CommonName (Subject cert)) chain) "|") ]}.

(** The Record of a connectivity event cannot be built, and [err] is the
    error of the step that fails: the marshalling of the payload, the
    serialization of the envelope, or the decoding into a Record. *)
Definition connectivity_build_error {E : External} (sm : SocketManager)
    (serializer : BinarySerializer) (rid : RequestIdentity)
    (status : ConnectivityEvent) (now : Timestamp) (err : error) : Prop :=
  let connectivityMessage :=
    {| Vin := DeviceID rid;
       ConnectionId := UUID sm;
       NetworkInterface := GetNetworkInterface sm;
       vc_CreatedAt := now;
       Status := status |} in
  proto_Marshal connectivityMessage = Err err \/
  (exists payload,
     proto_Marshal connectivityMessage = Ok payload /\
     ToBytes (connectivityStreamMessage sm rid connectivityMessage payload) = Err err) \/
  (exists payload message,
     proto_Marshal connectivityMessage = Ok payload /\
     ToBytes (connectivityStreamMessage sm rid connectivityMessage payload) = Ok message /\
     NewRecord serializer message (UUID sm) (transmitDecodedRecords sm) = Err err).

(** ** More test doubles and requests *)

(** A double whose decoders accept every header and find no PEM block. *)
Definition blocklessExternal : External := {|
  base64_DecodeString raw := Ok (bytes_of raw);
  url_QueryUnescape raw := Ok raw;
  pem_Decode _ := None;
  x509_ParseCertificates _ := Err (ErrText "x509: malformed certificate");
  client_type_of_issuer := client_type_of_issuer (External := testExternal);
  proto_Marshal := proto_Marshal (External := testExternal);
  ToBytes := ToBytes (External := testExternal);
  NewRecord := NewRecord (External := testExternal)
|}.

(** A double in which one step of the connectivity emission fails: the
    marshalling at stage 0, the serialization of the envelope at stage 1,
    and the decoding into a record at every stage. *)
Definition brokenExternal (stage : nat) : External := {|
  base64_DecodeString := base64_DecodeString (External := testExternal);
  url_QueryUnescape := url_QueryUnescape (External := testExternal);
  pem_Decode := pem_Decode (External := testExternal);
  x509_ParseCertificates := x509_ParseCertificates (External := testExternal);
  client_type_of_issuer := client_type_of_issuer (External := testExternal);
  proto_Marshal vc :=
    match stage with
    | O => Err (ErrText "proto: marshal failed")
    | _ => proto_Marshal (External := testExternal) vc
    end;
  ToBytes msg :=
    match stage with
    | 1%nat => Err (ErrText "flatbuffers: cannot serialize")
    | _ => ToBytes (External := testExternal) msg
    end;
  NewRecord _ _ _ _ := Err (ErrText "decode_error")
|}.

(** A certificate whose issuer the client type mapping rejects. *)
Definition stray_cert : Certificate :=
  {| Subject := {| CommonName := "VIN999" |};
     Issuer := {| CommonName := "" |};
     NotBefore := "2024-01-01 00:00:00 +0000 UTC";
     NotAfter := "2034-01-01 00:00:00 +0000 UTC" |}.

Definition stray_request : Request :=
  {| TLS := Some {| PeerCertificates := [stray_cert]; VerifiedChains := [] |};
     Header := ∅ |}.

(** The vehicle over direct TLS, sending certificate headers of its own. *)
Definition spoofing_request : Request :=
  {| TLS := TLS vehicle_request;
     Header := {[ "Client-Cert-Chain" := [empty_pem_base64];
                  "X-Amzn-Mtls-Clientcert" := ["%zz"] ]} |}.

(** The vehicle behind a proxy, with the TLS state of the proxy's own peer. *)
Definition proxied_with_peer_request : Request :=
  {| TLS := Some {| PeerCertificates := [stray_cert]; VerifiedChains := [] |};
     Header := {[ "Client-Cert-Chain" := [vehicle_pem_base64] ]} |}.

(** Requests behind an AWS load balancer: a header that is not an escaped
    string, the vehicle's header. *)
Definition garbled_alb_request : Request :=
  {| TLS := None; Header := {[ "X-Amzn-Mtls-Clientcert" := ["%zz"] ]} |}.
Definition proxied_vehicle_alb_request : Request :=
  {| TLS := None; Header := {[ "X-Amzn-Mtls-Clientcert" := [vehicle_pem_escaped] ]} |}.

(** A header that is there and holds the empty string. *)
Definition empty_header_request : Request :=
  {| TLS := None; Header := {[ "X-Amzn-Mtls-Clientcert" := [""] ]} |}.

Definition get_root : RequestLine :=
  {| Method := "GET"; URL_Path := "/"; RemoteAddr := "10.0.0.7:51234" |}.

Definition one_minute : LogScenario :=
  {| log_uuid := "req-1"; log_duration_ms := 60000 |}.

(** A peer whose upgrade fails after the upgrader has taken the
    connection over: it gets no reply. *)
Definition broken_upgrade : Scenario :=
  {| sc_upgrade :=
       UpgradeErr (ErrText "websocket: client sent data before handshake is complete")
         false;
     sc_uuid := "uuid-3";
     sc_network_interface := "";
     sc_connected_at := {| seconds := 1700000000; nanos := 0 |};
     sc_frames := [];
     sc_loop_end := LoopReturns;
     sc_disconnected_at := {| seconds := 1700000000; nanos := 0 |} |}.

(** A record a sink acknowledges without a serializer attached. *)
Definition bare_record : Record_ :=
  {| Serializer := None;
     RawBytes := bytes_of "V:T3";
     Topic := "V";
     TxType := "V";
     SocketID := "uuid-1" |}.

(** Another live connection. *)
Definition socket_9 : SocketManager :=
  {| UUID := "uuid-9";
     requestIdentity := Some {| DeviceID := "VIN900"; SenderID := "vehicle_device.VIN900" |};
     ws := {| ws_handle := 9 |};
     network_interface := "cellular";
     transmitDecodedRecords := false |}.

(** A connection opened after the 32-bit Unix time has wrapped. *)
Definition after_2106 : Timestamp := {| seconds := 2 ^ 32 + 5; nanos := 0 |}.

(** * The scenarios of the specification, run *)

(** Happy path: CONNECTED, the frame to both sinks, DISCONNECTED. *)
Example happy_path :
  let run := ServeBinaryWs server_with_connectivity direct_tls one_frame
               vehicle_request ∅ in
  outcome run = Returned tt /\
  map kind (events run) =
    ["log client_certificate"; "log chains_size"; "log chain_subject_common_name";
     "upgraded"; "register uuid-1"; "produce connectivity to logger";
     "loop starts"; "produce V to kafka"; "produce V to logger"; "loop exits";
     "deregister uuid-1"; "produce connectivity to logger"] /\
  final_registry run = ∅.
Proof. repeat split; reflexivity. Qed.

(** Connectivity topic absent: register and deregister, no connectivity
    record. *)
Example connectivity_topic_absent :
  let run := ServeBinaryWs server_without_connectivity direct_tls one_frame
               vehicle_request ∅ in
  outcome run = Returned tt /\
  map kind (events run) =
    ["log client_certificate"; "log chains_size"; "log chain_subject_common_name";
     "upgraded"; "register uuid-1"; "loop starts"; "produce V to kafka";
     "loop exits"; "deregister uuid-1"] /\
  final_registry run = ∅.
Proof. repeat split; reflexivity. Qed.

(** Missing certificate in RFC 9440 mode, connectivity configured: the
    upgrade has happened, the manager is registered, and register panics
    on the nil identity. *)
Example missing_certificate_with_connectivity :
  let run := ServeBinaryWs server_with_connectivity rfc9440_mode one_frame
               bare_request ∅ in
  outcome run = Panicked nil_dereference /\
  map kind (events run) =
    ["log client_certificate_not_found"; "upgraded";
     "error extract_sender_id_err: missing_certificate_error"; "register uuid-1"] /\
  dom (final_registry run) = {[ "uuid-1" ]}.
Proof. repeat split; reflexivity. Qed.

(** Registry miss: the ack of a connection that is gone. *)
Example registry_miss :
  map kind (events (handleAcks server_with_connectivity [acked_record] ∅)) =
    ["inc reliable_ack_miss"].
Proof. reflexivity. Qed.

(** * Identity extraction *)

Lemma Header_Get_absent (h : gmap string (list string)) (key : string) :
  h !! key = None -> Header_Get h key = "".
Proof. intros Hnone. unfold Header_Get. now rewrite Hnone. Qed.

Lemma eqb_empty_false (raw : string) : raw <> "" -> String.eqb raw "" = false.
Proof. intros Hne. now apply String.eqb_neq. Qed.

Lemma first_cert_xor (certs : list Certificate) (res : CertAndErr) :
  first_cert certs = Returned res -> cert_xor_err res.
Proof. destruct certs; simpl; intros Heq; inversion Heq; exact I. Qed.

Lemma extractCertRFC2440_xor {E : External} (r : Request) (res : CertAndErr) :
  extractCertRFC2440 r = Returned res -> cert_xor_err res.
Proof.
  unfold extractCertRFC2440.
  destruct (String.eqb _ ""); [intros Heq; inversion Heq; exact I|].
  destruct (base64_DecodeString _) as [rest|err]; [|intros Heq; inversion Heq; exact I].
  destruct (pem_Decode rest) as [block|]; [|intros Heq; inversion Heq; exact I].
  destruct (x509_ParseCertificates _) as [certs|err]; [|intros Heq; inversion Heq; exact I].
  apply first_cert_xor.
Qed.

Lemma extractCertAWSALB_xor {E : External} (r : Request) (res : CertAndErr) :
  extractCertAWSALB r = Returned res -> cert_xor_err res.
Proof.
  unfold extractCertAWSALB.
  destruct (String.eqb _ ""); [intros Heq; inversion Heq; exact I|].
  destruct (url_QueryUnescape _) as [rest|err]; [|intros Heq; inversion Heq; exact I].
  destruct (pem_Decode _) as [block|]; [|intros Heq; inversion Heq; exact I].
  destruct (x509_ParseCertificates _) as [certs|err]; [|intros Heq; inversion Heq; exact I].
  apply first_cert_xor.
Qed.

Lemma extractCertFromTLS_xor (r : Request) (res : CertAndErr) :
  extractCertFromTLS r = Returned res -> cert_xor_err res.
Proof.
  unfold extractCertFromTLS. destruct (TLS r) as [cs|]; [|discriminate].
  destruct (Nat.eqb _ 0); [intros Heq; inversion Heq; exact I|].
  destruct (_ !! _); [|discriminate]. intros Heq; inversion Heq; exact I.
Qed.

Lemma extractCert_xor {E : External} (r : Request) (config : Config) (res : CertAndErr) :
  extractCert r config = Returned res -> cert_xor_err res.
Proof.
  unfold extractCert. destruct (cfg_TLSPassThrough config) as [[|]|]; simpl.
  - apply extractCertRFC2440_xor.
  - apply extractCertAWSALB_xor.
  - apply extractCertFromTLS_xor.
Qed.

(** The nil-PEM-block branch wraps the nil error and still returns an
    error that is not nil. *)
Lemma extractCertRFC2440_nil_block {E : External} (r : Request) (rest : bytes) :
  Header_Get (Header r) "Client-Cert-Chain" <> "" ->
  base64_DecodeString (Header_Get (Header r) "Client-Cert-Chain") = Ok rest ->
  pem_Decode rest = None ->
  extractCertRFC2440 r =
    Returned (None, Some (ErrWrap "failed to parse certificates: " None)).
Proof.
  intros Hraw Hb64 Hpem. unfold extractCertRFC2440.
  rewrite (eqb_empty_false _ Hraw), Hb64, Hpem. reflexivity.
Qed.

(** Whenever the parser hands back no certificate and no error, the
    indexing [certs[0]] panics. *)
Lemma extractCertRFC2440_no_certificate {E : External} (r : Request)
    (rest : bytes) (block : Block) :
  Header_Get (Header r) "Client-Cert-Chain" <> "" ->
  base64_DecodeString (Header_Get (Header r) "Client-Cert-Chain") = Ok rest ->
  pem_Decode rest = Some block ->
  x509_ParseCertificates (block_Bytes block) = Ok [] ->
  extractCertRFC2440 r = Panicked index_out_of_range.
Proof.
  intros Hraw Hb64 Hpem Hparse. unfold extractCertRFC2440.
  rewrite (eqb_empty_false _ Hraw), Hb64, Hpem, Hparse. reflexivity.
Qed.

Lemma extractCertAWSALB_no_certificate {E : External} (r : Request)
    (rest : string) (block : Block) :
  Header_Get (Header r) "X-Amzn-Mtls-Clientcert" <> "" ->
  url_QueryUnescape (Header_Get (Header r) "X-Amzn-Mtls-Clientcert") = Ok rest ->
  pem_Decode (bytes_of rest) = Some block ->
  x509_ParseCertificates (block_Bytes block) = Ok [] ->
  extractCertAWSALB r = Panicked index_out_of_range.
Proof.
  intros Hraw Hesc Hpem Hparse. unfold extractCertAWSALB.
  rewrite (eqb_empty_false _ Hraw), Hesc, Hpem, Hparse. reflexivity.
Qed.

(** C4. In direct TLS mode (no pass-through configured) identity
    extraction works on the last certificate of the peer chain; when the
    peer chain is empty it fails with the missing_certificate error and
    returns no certificate and no identity. *)
Theorem direct_tls_uses_last_certificate {E : External}
    (r : Request) (config : Config) (cs : ConnectionState) :
  cfg_TLSPassThrough config = None ->
  TLS r = Some cs ->
  (PeerCertificates cs = [] ->
     extractCertFromTLS r = Returned (None, Some (ErrText "missing_certificate_error")) /\
     extractIdentity r config = Returned (None, Some (ErrText "missing_certificate_error")) /\
     missing_certificate (ErrText "missing_certificate_error")) /\
  (forall cert, last (PeerCertificates cs) = Some cert ->
     extractCertFromTLS r = Returned (Some cert, None) /\
     extractIdentity r config = Returned (identityFromCert cert)).
Proof.
  intros Hmode Htls. unfold extractIdentity, extractCert. rewrite Hmode.
  unfold extractCertFromTLS. rewrite Htls. split.
  - intros Hnil. rewrite Hnil. simpl. repeat split; reflexivity.
  - intros cert Hlast.
    destruct (PeerCertificates cs) as [|c0 chain] eqn:Hchain; [discriminate|].
    rewrite last_lookup in Hlast. simpl length in *. simpl Nat.pred in Hlast.
    replace (S (length chain) - 1)%nat with (length chain) by lia.
    simpl Nat.eqb. cbv iota. rewrite Hlast. split; reflexivity.
Qed.

Lemma direct_tls_uses_last_certificate_witness :
  (extractCertFromTLS vehicle_request = Returned (Some vehicle_cert, None) /\
   extractIdentity vehicle_request direct_tls = Returned (identityFromCert vehicle_cert)) /\
  extractIdentity empty_chain_request direct_tls =
    Returned (None, Some (ErrText "missing_certificate_error")).
Proof.
  split.
  - apply (direct_tls_uses_last_certificate (E := testExternal) vehicle_request direct_tls
             {| PeerCertificates := [issuing_ca; vehicle_cert];
                VerifiedChains := [[vehicle_cert; issuing_ca]] |});
      reflexivity.
  - apply (direct_tls_uses_last_certificate (E := testExternal) empty_chain_request direct_tls
             {| PeerCertificates := []; VerifiedChains := [] |});
      reflexivity.
Defined.

(** C5. In RFC 9440 pass-through mode an absent Client-Cert-Chain header
    is a missing_certificate failure, a header whose value is not valid
    base64 is a parse_certificate failure, and a successful extraction
    returns the first certificate parsed from the first PEM block of the
    decoded value. *)
Theorem rfc9440_extraction {E : External} (r : Request) (config : Config) :
  cfg_TLSPassThrough config = Some RFC9440 ->
  extractCert r config = extractCertRFC2440 r /\
  (Header r !! "Client-Cert-Chain" = None ->
     exists err, extractCertRFC2440 r = Returned (None, Some err) /\
       extractIdentity r config = Returned (None, Some err) /\
       missing_certificate err) /\
  (forall cause,
     Header_Get (Header r) "Client-Cert-Chain" <> "" ->
     base64_DecodeString (Header_Get (Header r) "Client-Cert-Chain") = Err cause ->
     exists err, extractCertRFC2440 r = Returned (None, Some err) /\
       extractIdentity r config = Returned (None, Some err) /\
       parse_certificate err) /\
  (forall cert err,
     extractCertRFC2440 r = Returned (Some cert, err) ->
     exists rest block others,
       base64_DecodeString (Header_Get (Header r) "Client-Cert-Chain") = Ok rest /\
       pem_Decode rest = Some block /\
       x509_ParseCertificates (block_Bytes block) = Ok (cert :: others) /\
       err = None /\
       extractIdentity r config = Returned (identityFromCert cert)).
Proof.
  intros Hmode.
  assert (Hcert : extractCert r config = extractCertRFC2440 r).
  { unfold extractCert. now rewrite Hmode. }
  split; [exact Hcert|]. unfold extractIdentity. rewrite Hcert.
  unfold extractCertRFC2440. repeat split.
  - intros Habsent. rewrite (Header_Get_absent _ _ Habsent). simpl.
    exists (ErrText "missing_certificate_error"). repeat split; reflexivity.
  - intros cause Hraw Hb64. rewrite (eqb_empty_false _ Hraw), Hb64.
    exists (ErrWrap "failed to parse certificates: " (Some cause)).
    repeat split; try reflexivity. exists (Error cause). reflexivity.
  - intros cert err.
    destruct (String.eqb _ ""); [discriminate|].
    destruct (base64_DecodeString _) as [rest|cause] eqn:Hb64; [|discriminate].
    destruct (pem_Decode rest) as [block|] eqn:Hpem; [|discriminate].
    destruct (x509_ParseCertificates _) as [[|c others]|cause] eqn:Hparse;
      try discriminate.
    simpl. intros Heq. inversion Heq; subst.
    exists rest, block, others. repeat split; reflexivity || assumption.
Qed.

Lemma rfc9440_extraction_witness :
  (exists err, extractCertRFC2440 bare_request = Returned (None, Some err) /\
     extractIdentity bare_request rfc9440_mode = Returned (None, Some err) /\
     missing_certificate err) /\
  (exists err, extractCertRFC2440 garbled_request = Returned (None, Some err) /\
     extractIdentity garbled_request rfc9440_mode = Returned (None, Some err) /\
     parse_certificate err) /\
  extractIdentity proxied_vehicle_request rfc9440_mode =
    Returned (identityFromCert vehicle_cert).
Proof.
  split; [|split].
  - apply (rfc9440_extraction (E := testExternal) bare_request rfc9440_mode); reflexivity.
  - apply (rfc9440_extraction (E := testExternal) garbled_request rfc9440_mode
             eq_refl) with (cause := ErrText "illegal base64 data at input byte 0");
      [discriminate|reflexivity].
  - destruct (proj2 (proj2 (proj2 (rfc9440_extraction (E := testExternal)
               proxied_vehicle_request rfc9440_mode eq_refl))) vehicle_cert None eq_refl)
      as (rest & block & others & _ & _ & _ & _ & Hid).
    exact Hid.
Defined.

(** C8. Every identity created from a certificate has
    sender_id = client_type + "." + device_id, where the client type is
    the one computed from the issuer common name and the device id is the
    subject common name; every identity [extractIdentity] returns is
    created that way from the certificate the configured mode extracts. *)
Theorem sender_id_of_identity {E : External} :
  (forall cert rid err,
     identityFromCert cert = (Some rid, err) ->
     exists clientType,
       client_type_of_issuer (CommonName (Issuer cert)) = Ok clientType /\
       DeviceID rid = CommonName (Subject cert) /\
       SenderID rid = clientType +:+ "." +:+ DeviceID rid) /\
  (forall r config rid err,
     extractIdentity r config = Returned (Some rid, err) ->
     exists cert,
       extractCert r config = Returned (Some cert, None) /\
       identityFromCert cert = (Some rid, err)).
Proof.
  split.
  - intros cert rid err. unfold identityFromCert, CreateIdentityFromCert.
    destruct (client_type_of_issuer _) as [clientType|cause]; [|discriminate].
    intros Heq. inversion Heq; subst. simpl. exists clientType. repeat split.
  - intros r config rid err. unfold extractIdentity.
    destruct (extractCert r config) as [[[cert|] [e|]]|reason]; try discriminate.
    intros Heq. injection Heq as Hid. exists cert. split; [reflexivity|exact Hid].
Qed.

Lemma sender_id_of_identity_witness :
  (exists clientType,
     client_type_of_issuer (CommonName (Issuer vehicle_cert)) = Ok clientType /\
     DeviceID vehicle_identity = CommonName (Subject vehicle_cert) /\
     SenderID vehicle_identity = clientType +:+ "." +:+ DeviceID vehicle_identity) /\
  (exists cert,
     extractCert vehicle_request direct_tls = Returned (Some cert, None) /\
     identityFromCert cert = (Some vehicle_identity, None)).
Proof.
  split.
  - apply (proj1 (sender_id_of_identity (E := testExternal)) vehicle_cert
             vehicle_identity None).
    reflexivity.
  - apply (proj2 (sender_id_of_identity (E := testExternal)) vehicle_request direct_tls).
    reflexivity.
Defined.

(** C10 (defect of the code). The header extractors are not total: on a
    header that carries a PEM block with an empty body, the block is not
    nil, the certificate parser returns no certificate and no error, and
    [certs[0]] panics, in both extractors and so in [extractIdentity]. *)
Theorem extractors_panic_on_empty_block :
  extractCertRFC2440 (E := testExternal) empty_block_request =
    Panicked index_out_of_range /\
  extractCertAWSALB (E := testExternal) empty_block_alb_request =
    Panicked index_out_of_range /\
  extractIdentity (E := testExternal) empty_block_request rfc9440_mode =
    Panicked index_out_of_range /\
  extractIdentity (E := testExternal) empty_block_alb_request alb_mode =
    Panicked index_out_of_range.
Proof.
  assert (H1 : extractCertRFC2440 (E := testExternal) empty_block_request =
               Panicked index_out_of_range).
  { apply extractCertRFC2440_no_certificate
      with (rest := bytes_of empty_pem)
           (block := {| block_Type := "CERTIFICATE"; block_Bytes := [] |});
      [discriminate|reflexivity|reflexivity|reflexivity]. }
  assert (H2 : extractCertAWSALB (E := testExternal) empty_block_alb_request =
               Panicked index_out_of_range).
  { apply extractCertAWSALB_no_certificate
      with (rest := empty_pem)
           (block := {| block_Type := "CERTIFICATE"; block_Bytes := [] |});
      [discriminate|reflexivity|reflexivity|reflexivity]. }
  split; [exact H1|]. split; [exact H2|].
  unfold extractIdentity, extractCert. simpl. now rewrite H1, H2.
Qed.

(** * Running the monad *)

Lemma runs_ret {A} (a : A) : runs (mret a) (fun reg => reg) (Returned a) [].
Proof. intros reg. reflexivity. Qed.

Lemma runs_emit (e : Event) : runs (emit e) (fun reg => reg) (Returned tt) [e].
Proof. intros reg. reflexivity. Qed.

Lemma runs_panic {A} (reason : string) :
  runs (panic (A := A) reason) (fun reg => reg) (Panicked reason) [].
Proof. intros reg. reflexivity. Qed.

Lemma runs_lift {A} (o : Outcome A) : runs (lift o) (fun reg => reg) o [].
Proof. intros reg. reflexivity. Qed.

Lemma runs_bind {A B} (m : M A) (k : A -> M B) f g a o evs evs' :
  runs m f (Returned a) evs ->
  runs (k a) g o evs' ->
  runs (m ≫= k) (fun reg => g (f reg)) o (evs ++ evs').
Proof.
  intros Hm Hk reg. unfold mbind, M_bind, bind. cbv zeta. rewrite !Hm. simpl.
  rewrite !Hk. reflexivity.
Qed.

Lemma runs_bind_panicked {A B} (m : M A) (k : A -> M B) f reason evs :
  runs m f (Panicked reason) evs ->
  runs (m ≫= k) f (Panicked reason) evs.
Proof.
  intros Hm reg. unfold mbind, M_bind, bind. cbv zeta. rewrite !Hm. reflexivity.
Qed.

Lemma runs_defer {A} (deferred : M unit) (body : M A) f g o evs evs' :
  runs body f o evs ->
  runs deferred g (Returned tt) evs' ->
  runs (defer_ deferred body) (fun reg => g (f reg)) o (evs ++ evs').
Proof.
  intros Hbody Hdeferred reg. unfold defer_. cbv zeta. rewrite !Hbody. simpl.
  rewrite !Hdeferred. reflexivity.
Qed.

Lemma runs_produce_all (producers : list Producer) (record : Record_) :
  runs (for_each producers (fun dispatcher => Produce dispatcher record))
    (fun reg => reg) (Returned tt)
    (map (fun dispatcher => EvProduce dispatcher record) producers).
Proof.
  induction producers as [|p rest IH]; simpl.
  - apply runs_ret.
  - apply (runs_bind _ _ (fun reg => reg) (fun reg => reg) tt _ [EvProduce p record]).
    + apply runs_emit.
    + exact IH.
Qed.

Lemma runs_outcome {A} (m : M A) f o evs reg : runs m f o evs -> outcome (m reg) = o.
Proof. intros Hm. now rewrite Hm. Qed.

Lemma runs_events {A} (m : M A) f o evs reg : runs m f o evs -> events (m reg) = evs.
Proof. intros Hm. now rewrite Hm. Qed.

Lemma runs_registry {A} (m : M A) f o evs reg :
  runs m f o evs -> final_registry (m reg) = f reg.
Proof. intros Hm. now rewrite Hm. Qed.

(** * The connectivity emitter *)

Section Emitter.
Context {E : External}.
Variables (s : Server) (sm : SocketManager) (serializer : BinarySerializer).
Variables (status : ConnectivityEvent) (now : Timestamp).

Lemma wraps_connectivity_unique (record1 record2 : Record_) :
  wraps_connectivity sm serializer status now record1 ->
  wraps_connectivity sm serializer status now record2 ->
  record1 = record2.
Proof.
  intros (rid1 & p1 & m1 & Hid1 & Hp1 & Hm1 & Hr1) (rid2 & p2 & m2 & Hid2 & Hp2 & Hm2 & Hr2).
  rewrite Hid1 in Hid2. injection Hid2 as <-.
  rewrite Hp1 in Hp2. injection Hp2 as <-.
  rewrite Hm1 in Hm2. injection Hm2 as <-.
  rewrite Hr1 in Hr2. now injection Hr2.
Qed.

(** The four ways [dispatchConnectivityEvent] ends. *)
Lemma dispatchConnectivityEvent_runs :
  (requestIdentity sm = None /\ is_Some (DispatchRules s !! connectitivityTopic) /\
   runs (dispatchConnectivityEvent s sm serializer status now)
     (fun reg => reg) (Panicked nil_dereference) []) \/
  (DispatchRules s !! connectitivityTopic = None /\
   runs (dispatchConnectivityEvent s sm serializer status now)
     (fun reg => reg) (Returned None) []) \/
  (exists producers rid err,
     DispatchRules s !! connectitivityTopic = Some producers /\
     requestIdentity sm = Some rid /\
     (forall record, ~ wraps_connectivity sm serializer status now record) /\
     runs (dispatchConnectivityEvent s sm serializer status now)
       (fun reg => reg) (Returned (Some err)) []) \/
  (exists producers record,
     DispatchRules s !! connectitivityTopic = Some producers /\
     wraps_connectivity sm serializer status now record /\
     runs (dispatchConnectivityEvent s sm serializer status now)
       (fun reg => reg) (Returned None)
       (map (fun dispatcher => EvProduce dispatcher record) producers)).
Proof.
  unfold dispatchConnectivityEvent.
  destruct (DispatchRules s !! connectitivityTopic) as [producers|] eqn:Hrules.
  2: { right; left. split; [reflexivity|apply runs_ret]. }
  destruct (requestIdentity sm) as [rid|] eqn:Hid.
  2: { left. split; [reflexivity|]. split; [eauto|apply runs_panic]. }
  right; right.
  destruct (proto_Marshal _) as [payload|err] eqn:Hpayload.
  2: { left. exists producers, rid, err.
       split; [reflexivity|]. split; [reflexivity|]. split; [|apply runs_ret].
       intros record (rid' & p & m & Hid' & Hp & _).
       rewrite Hid in Hid'. injection Hid' as <-. rewrite Hpayload in Hp. discriminate. }
  destruct (ToBytes _) as [message|err] eqn:Hmessage.
  2: { left. exists producers, rid, err.
       split; [reflexivity|]. split; [reflexivity|]. split; [|apply runs_ret].
       intros record (rid' & p & m & Hid' & Hp & Hm & _).
       rewrite Hid in Hid'. injection Hid' as <-.
       rewrite Hpayload in Hp. injection Hp as <-. rewrite Hmessage in Hm. discriminate. }
  destruct (NewRecord _ _ _ _) as [record|err] eqn:Hrecord.
  2: { left. exists producers, rid, err.
       split; [reflexivity|]. split; [reflexivity|]. split; [|apply runs_ret].
       intros record (rid' & p & m & Hid' & Hp & Hm & Hr).
       rewrite Hid in Hid'. injection Hid' as <-.
       rewrite Hpayload in Hp. injection Hp as <-.
       rewrite Hmessage in Hm. injection Hm as <-. rewrite Hrecord in Hr. discriminate. }
  right. exists producers, record. split; [reflexivity|]. split.
  - exists rid, payload, message. cbv zeta. rewrite Hid. auto.
  - replace (map _ producers) with
      (map (fun dispatcher => EvProduce dispatcher record) producers ++ [])
      by apply app_nil_r.
    apply (runs_bind _ _ (fun reg => reg) (fun reg => reg) tt).
    + apply runs_produce_all.
    + apply runs_ret.
Qed.

(** The connectivity emission of register and deregister: the dispatch,
    then the log line when the dispatch returned an error. *)
Lemma emission_runs (msg : string) :
  (requestIdentity sm = None /\ is_Some (DispatchRules s !! connectitivityTopic) /\
   runs (dispatchConnectivityEvent s sm serializer status now ≫=
           log_connectivity_error msg sm status)
     (fun reg => reg) (Panicked nil_dereference) []) \/
  (exists evs,
     connectivity_emission s sm serializer status now evs /\
     runs (dispatchConnectivityEvent s sm serializer status now ≫=
             log_connectivity_error msg sm status)
       (fun reg => reg) (Returned tt) evs).
Proof.
  destruct dispatchConnectivityEvent_runs
    as [(Hid & Hrules & Hrun)
       |[(Hrules & Hrun)
        |[(producers & rid & err & Hrules & Hid & Hnone & Hrun)
         |(producers & record & Hrules & Hwraps & Hrun)]]].
  - left. split; [assumption|]. split; [assumption|].
    now apply runs_bind_panicked.
  - right. exists []. split; [now constructor|].
    apply (runs_bind _ _ (fun reg => reg) (fun reg => reg) None _ [] []);
      [assumption|apply runs_ret].
  - right. eexists. split.
    + eapply emission_failed; eassumption.
    + apply (runs_bind _ _ (fun reg => reg) (fun reg => reg) (Some err) _ []);
        [assumption|].
      unfold log_connectivity_error. rewrite Hid. apply runs_emit.
  - right. eexists. split.
    + eapply emission_produced; eassumption.
    + rewrite <- (app_nil_r (map _ producers)).
      apply (runs_bind _ _ (fun reg => reg) (fun reg => reg) None);
        [assumption|apply runs_ret].
Qed.

Lemma registerSocket_panics :
  requestIdentity sm = None ->
  is_Some (DispatchRules s !! connectitivityTopic) ->
  runs (registerSocket s sm serializer now) (fun reg => <[UUID sm := sm]> reg)
    (Panicked nil_dereference) [EvRegisterSocket sm].
Proof.
  intros Hid [producers Hrules] reg.
  unfold registerSocket, dispatchConnectivityEvent, mbind, M_bind, bind.
  rewrite Hrules, Hid. reflexivity.
Qed.

End Emitter.

(** * Register, deregister, the read loop *)

Section Lifecycle.
Context {E : External}.
Variables (s : Server) (sm : SocketManager) (serializer : BinarySerializer).

Lemma runs_RegisterSocket :
  runs (RegisterSocket sm) (fun reg => <[UUID sm := sm]> reg) (Returned tt)
    [EvRegisterSocket sm].
Proof. intros reg. reflexivity. Qed.

Lemma runs_DeregisterSocket :
  runs (DeregisterSocket sm) (fun reg => delete (UUID sm) reg) (Returned tt)
    [EvDeregisterSocket sm].
Proof. intros reg. reflexivity. Qed.

Lemma can_emit_no_panic : can_emit s sm ->
  ~ (requestIdentity sm = None /\ is_Some (DispatchRules s !! connectitivityTopic)).
Proof.
  intros [[rid Hid]|Hrules] [Hnone [producers Hsome]]; congruence.
Qed.

Lemma registerSocket_runs (now : Timestamp) :
  can_emit s sm ->
  exists cs,
    connectivity_emission s sm serializer ConnectivityEvent_CONNECTED now cs /\
    runs (registerSocket s sm serializer now) (fun reg => <[UUID sm := sm]> reg)
      (Returned tt) (EvRegisterSocket sm :: cs).
Proof.
  intros Hcan.
  destruct (emission_runs s sm serializer ConnectivityEvent_CONNECTED now
              "connectivity_registeration_error")
    as [(Hid & Hrules & _)|(cs & Hcs & Hrun)].
  - exfalso. now apply (can_emit_no_panic Hcan).
  - exists cs. split; [assumption|].
    apply (runs_bind _ _ _ (fun reg => reg) tt _ [EvRegisterSocket sm] cs);
      [apply runs_RegisterSocket|exact Hrun].
Qed.

Lemma deregisterSocket_runs (now : Timestamp) :
  can_emit s sm ->
  exists ds,
    connectivity_emission s sm serializer ConnectivityEvent_DISCONNECTED now ds /\
    runs (deregisterSocket s sm serializer now) (fun reg => delete (UUID sm) reg)
      (Returned tt) (EvDeregisterSocket sm :: ds).
Proof.
  intros Hcan.
  destruct (emission_runs s sm serializer ConnectivityEvent_DISCONNECTED now
              "connectivity_deregisteration_error")
    as [(Hid & Hrules & _)|(ds & Hds & Hrun)].
  - exfalso. now apply (can_emit_no_panic Hcan).
  - exists ds. split; [assumption|].
    apply (runs_bind _ _ _ (fun reg => reg) tt _ [EvDeregisterSocket sm] ds);
      [apply runs_DeregisterSocket|exact Hrun].
Qed.

Lemma runs_Dispatch (record : Record_) (data : bytes) :
  NewRecord serializer data (UUID sm) (transmitDecodedRecords sm) = Ok record ->
  exists evs, Forall (is_telemetry sm serializer) evs /\
    runs (Dispatch serializer record) (fun reg => reg) (Returned tt) evs.
Proof.
  intros Hrecord. unfold Dispatch.
  destruct (ser_DispatchRules serializer !! Topic record) as [producers|].
  - eexists. split; [|apply runs_produce_all].
    apply Forall_forall. intros e Hin. apply list_elem_of_fmap in Hin.
    destruct Hin as (producer & -> & _). now exists producer, record, data.
  - exists []. split; [constructor|apply runs_ret].
Qed.

Lemma runs_process_frame (frame : Frame) :
  exists evs, Forall (is_telemetry sm serializer) evs /\
    runs (process_frame sm serializer frame) (fun reg => reg) (Returned tt) evs.
Proof.
  destruct frame as [data|]; simpl.
  - destruct (NewRecord _ _ _ _) as [record|err] eqn:Hrecord.
    + now apply runs_Dispatch with (data := data).
    + exists []. split; [constructor|apply runs_ret].
  - exists []. split; [constructor|apply runs_ret].
Qed.

Lemma runs_frames (frames : list Frame) :
  exists tele, Forall (is_telemetry sm serializer) tele /\
    runs (for_each frames (process_frame sm serializer)) (fun reg => reg)
      (Returned tt) tele.
Proof.
  induction frames as [|frame rest (tele & Htele & Hrun)]; simpl.
  - exists []. split; [constructor|apply runs_ret].
  - destruct (runs_process_frame frame) as (evs & Hevs & Hframe).
    exists (evs ++ tele). split; [now apply Forall_app|].
    now apply (runs_bind _ _ (fun reg => reg) (fun reg => reg) tt).
Qed.

Lemma runs_ProcessTelemetry (frames : list Frame) (loop_end : LoopEnd) :
  exists tele, Forall (is_telemetry sm serializer) tele /\
    runs (ProcessTelemetry sm serializer frames loop_end) (fun reg => reg)
      (loop_outcome loop_end)
      ([EvReadLoopStart (UUID sm)] ++ tele ++ [EvReadLoopExit (UUID sm)]).
Proof.
  destruct (runs_frames frames) as (tele & Htele & Hrun).
  exists tele. split; [assumption|]. unfold ProcessTelemetry.
  apply (runs_bind _ _ (fun reg => reg) (fun reg => reg) tt); [apply runs_emit|].
  apply (runs_bind _ _ (fun reg => reg) (fun reg => reg) tt); [exact Hrun|].
  rewrite <- (app_nil_r [EvReadLoopExit (UUID sm)]).
  apply (runs_bind _ _ (fun reg => reg) (fun reg => reg) tt); [apply runs_emit|].
  destruct loop_end; [apply runs_ret|apply runs_panic].
Qed.

End Lifecycle.

(** * The handler *)

Section Handler.
Context {E : External}.
Variables (s : Server) (config : Config) (sc : Scenario) (r : Request).

Lemma runs_log_chains (chains : list (list Certificate)) (idx : nat) :
  exists logs, Forall is_log logs /\
    runs (log_chains idx chains) (fun reg => reg) (Returned tt) logs.
Proof.
  revert idx. induction chains as [|chain rest IH]; intros idx; simpl.
  - exists []. split; [constructor|apply runs_ret].
  - destruct (IH (S idx)) as (logs & Hlogs & Hrun).
    eexists (_ :: logs). split; cycle 1.
    + apply (runs_bind _ _ (fun reg => reg) (fun reg => reg) tt _ [_] logs);
        [apply runs_emit|exact Hrun].
    + constructor; [exact I|exact Hlogs].
Qed.

Lemma runs_log_client_certificate :
  exists logs, Forall is_log logs /\
    runs (log_client_certificate r) (fun reg => reg) (Returned tt) logs.
Proof.
  unfold log_client_certificate.
  destruct (TLS r) as [cs|].
  2: { eexists [_]. split; cycle 1; [apply runs_emit|repeat constructor]. }
  destruct (PeerCertificates cs) as [|clientCert chain].
  { eexists [_]. split; cycle 1; [apply runs_emit|repeat constructor]. }
  destruct (runs_log_chains (VerifiedChains cs) 0) as (logs & Hlogs & Hrun).
  eexists (_ :: _ :: logs). split; cycle 1.
  - apply (runs_bind _ _ (fun reg => reg) (fun reg => reg) tt _ [_] (_ :: logs));
      [apply runs_emit|].
    apply (runs_bind _ _ (fun reg => reg) (fun reg => reg) tt _ [_] logs);
      [apply runs_emit|exact Hrun].
  - repeat (constructor; [exact I|]). exact Hlogs.
Qed.

Lemma runs_promoteToWebsocket_ok (conn : WebSocket) :
  sc_upgrade sc = UpgradeOk conn ->
  runs (promoteToWebsocket sc) (fun reg => reg) (Returned (Some conn)) [EvUpgraded conn].
Proof.
  intros Hup reg. unfold promoteToWebsocket. rewrite Hup. reflexivity.
Qed.

Lemma runs_promoteToWebsocket_refused (err : error) (isHandshakeError : bool) :
  sc_upgrade sc = UpgradeErr err isHandshakeError ->
  runs (promoteToWebsocket sc) (fun reg => reg) (Returned None)
    (if isHandshakeError then [EvUpgradeRefused err; EvReportError err]
     else [EvReportError err; EvErrorLog "websocket_promotion_error" err ∅]).
Proof.
  intros Hup reg. unfold promoteToWebsocket. rewrite Hup.
  destruct isHandshakeError; reflexivity.
Qed.

(** The handler when the upgrade is refused. *)
Lemma ServeBinaryWs_refused (err : error) (isHandshakeError : bool) :
  sc_upgrade sc = UpgradeErr err isHandshakeError ->
  exists logs, Forall is_log logs /\
    runs (ServeBinaryWs s config sc r) (fun reg => reg) (Returned tt)
      (logs ++
       (if isHandshakeError then [EvUpgradeRefused err; EvReportError err]
        else [EvReportError err; EvErrorLog "websocket_promotion_error" err ∅])).
Proof.
  intros Hup. destruct runs_log_client_certificate as (logs & Hlogs & Hrun).
  exists logs. split; [assumption|]. unfold ServeBinaryWs.
  apply (runs_bind _ _ (fun reg => reg) (fun reg => reg) tt); [exact Hrun|].
  rewrite <- (app_nil_r (if isHandshakeError then _ else _)).
  apply (runs_bind _ _ (fun reg => reg) (fun reg => reg) None);
    [now apply runs_promoteToWebsocket_refused|apply runs_ret].
Qed.

(** The handler when the identity extraction panics. *)
Lemma ServeBinaryWs_identity_panics (conn : WebSocket) (reason : string) :
  sc_upgrade sc = UpgradeOk conn ->
  extractIdentity r config = Panicked reason ->
  exists logs, Forall is_log logs /\
    runs (ServeBinaryWs s config sc r) (fun reg => reg) (Panicked reason)
      (logs ++ [EvUpgraded conn]).
Proof.
  intros Hup Hid. destruct runs_log_client_certificate as (logs & Hlogs & Hrun).
  exists logs. split; [assumption|]. unfold ServeBinaryWs.
  apply (runs_bind _ _ (fun reg => reg) (fun reg => reg) tt); [exact Hrun|].
  rewrite <- (app_nil_r [EvUpgraded conn]).
  apply (runs_bind _ _ (fun reg => reg) (fun reg => reg) (Some conn));
    [now apply runs_promoteToWebsocket_ok|].
  cbv beta iota. rewrite Hid. apply runs_bind_panicked. apply runs_lift.
Qed.

(** The part of the handler after the identity extraction returned. *)
Lemma runs_identity_error_log (err : option error) :
  runs (match err with
        | Some err => ErrorLog "extract_sender_id_err" err ∅
        | None => mret tt
        end) (fun reg => reg) (Returned tt) (identity_error_log err).
Proof. destruct err; [apply runs_emit|apply runs_ret]. Qed.

(** The handler when register panics: the manager stays registered. *)
Lemma ServeBinaryWs_register_panics (conn : WebSocket) (err : option error) :
  sc_upgrade sc = UpgradeOk conn ->
  extractIdentity r config = Returned (None, err) ->
  is_Some (DispatchRules s !! connectitivityTopic) ->
  let sm := NewSocketManager sc None conn config in
  exists logs, Forall is_log logs /\
    runs (ServeBinaryWs s config sc r) (fun reg => <[UUID sm := sm]> reg)
      (Panicked nil_dereference)
      (logs ++ [EvUpgraded conn] ++ identity_error_log err ++ [EvRegisterSocket sm]).
Proof.
  intros Hup Hid Hrules sm. destruct runs_log_client_certificate as (logs & Hlogs & Hrun).
  exists logs. split; [assumption|]. unfold ServeBinaryWs.
  apply (runs_bind _ _ (fun reg => reg) _ tt); [exact Hrun|].
  apply (runs_bind _ _ (fun reg => reg) _ (Some conn));
    [now apply runs_promoteToWebsocket_ok|].
  cbv beta iota. rewrite Hid.
  apply (runs_bind _ _ (fun reg => reg) _ (None, err) _ []); [apply runs_lift|].
  cbv beta iota.
  apply (runs_bind _ _ (fun reg => reg) _ tt); [apply runs_identity_error_log|].
  apply runs_bind_panicked. now apply registerSocket_panics.
Qed.

(** The handler when the read loop is reached. *)
Lemma ServeBinaryWs_runs (conn : WebSocket) (rid : option RequestIdentity)
    (err : option error) :
  sc_upgrade sc = UpgradeOk conn ->
  extractIdentity r config = Returned (rid, err) ->
  let sm := NewSocketManager sc rid conn config in
  let serializer := NewBinarySerializer rid (DispatchRules s) in
  can_emit s sm ->
  exists logs cs tele ds,
    Forall is_log logs /\
    connectivity_emission s sm serializer ConnectivityEvent_CONNECTED
      (sc_connected_at sc) cs /\
    Forall (is_telemetry sm serializer) tele /\
    connectivity_emission s sm serializer ConnectivityEvent_DISCONNECTED
      (sc_disconnected_at sc) ds /\
    runs (ServeBinaryWs s config sc r)
      (fun reg => delete (UUID sm) (<[UUID sm := sm]> reg))
      (loop_outcome (sc_loop_end sc))
      (logs ++ [EvUpgraded conn] ++ identity_error_log err ++
       (EvRegisterSocket sm :: cs) ++
       ([EvReadLoopStart (UUID sm)] ++ tele ++ [EvReadLoopExit (UUID sm)]) ++
       (EvDeregisterSocket sm :: ds)).
Proof.
  intros Hup Hid sm serializer Hcan.
  destruct runs_log_client_certificate as (logs & Hlogs & Hrun).
  destruct (registerSocket_runs s sm serializer (sc_connected_at sc) Hcan)
    as (cs & Hcs & Hregister).
  destruct (deregisterSocket_runs s sm serializer (sc_disconnected_at sc) Hcan)
    as (ds & Hds & Hderegister).
  destruct (runs_ProcessTelemetry sm serializer (sc_frames sc) (sc_loop_end sc))
    as (tele & Htele & Hloop).
  exists logs, cs, tele, ds. repeat (split; [assumption|]).
  unfold ServeBinaryWs.
  apply (runs_bind _ _ (fun reg => reg) _ tt); [exact Hrun|].
  apply (runs_bind _ _ (fun reg => reg) _ (Some conn));
    [now apply runs_promoteToWebsocket_ok|].
  cbv beta iota. rewrite Hid.
  apply (runs_bind _ _ (fun reg => reg) _ (rid, err) _ []); [apply runs_lift|].
  cbv beta iota.
  apply (runs_bind _ _ (fun reg => reg) _ tt); [apply runs_identity_error_log|].
  apply (runs_bind _ _ _ (fun reg => delete (UUID sm) reg) tt); [exact Hregister|].
  apply (runs_defer _ _ (fun reg => reg)); [exact Hloop|exact Hderegister].
Qed.

End Handler.

(** * The connectivity topic is optional *)

(** C6. When DispatchRules has no entry for the topic connectivity,
    dispatching a connectivity event returns success and produces nothing
    to any sink, and register and deregister complete, having performed
    their Registry operation. *)
Theorem connectivity_topic_optional {E : External} (s : Server) (sm : SocketManager)
    (serializer : BinarySerializer) (event : ConnectivityEvent) (now : Timestamp)
    (reg : Registry) :
  DispatchRules s !! connectitivityTopic = None ->
  dispatchConnectivityEvent s sm serializer event now reg =
    {| outcome := Returned None; final_registry := reg; events := [] |} /\
  registerSocket s sm serializer now reg =
    {| outcome := Returned tt;
       final_registry := <[UUID sm := sm]> reg;
       events := [EvRegisterSocket sm] |} /\
  deregisterSocket s sm serializer now reg =
    {| outcome := Returned tt;
       final_registry := delete (UUID sm) reg;
       events := [EvDeregisterSocket sm] |} /\
  final_registry (registerSocket s sm serializer now reg) !! UUID sm = Some sm /\
  final_registry (deregisterSocket s sm serializer now reg) !! UUID sm = None.
Proof.
  intros Hrules.
  assert (Hdispatch : forall ev reg',
            dispatchConnectivityEvent s sm serializer ev now reg' =
              {| outcome := Returned None; final_registry := reg'; events := [] |}).
  { intros ev reg'. unfold dispatchConnectivityEvent. now rewrite Hrules. }
  assert (Hregister : registerSocket s sm serializer now reg =
            {| outcome := Returned tt;
               final_registry := <[UUID sm := sm]> reg;
               events := [EvRegisterSocket sm] |}).
  { unfold registerSocket, mbind, M_bind, bind. cbv zeta. simpl.
    rewrite !Hdispatch. reflexivity. }
  assert (Hderegister : deregisterSocket s sm serializer now reg =
            {| outcome := Returned tt;
               final_registry := delete (UUID sm) reg;
               events := [EvDeregisterSocket sm] |}).
  { unfold deregisterSocket, mbind, M_bind, bind. cbv zeta. simpl.
    rewrite !Hdispatch. reflexivity. }
  split; [apply Hdispatch|]. split; [exact Hregister|]. split; [exact Hderegister|].
  rewrite Hregister, Hderegister. simpl. split.
  - apply lookup_insert_eq.
  - apply lookup_delete_eq.
Qed.

Lemma connectivity_topic_optional_witness :
  registerSocket server_without_connectivity socket_1 serializer_1
    (sc_connected_at one_frame) ∅ =
    {| outcome := Returned tt;
       final_registry := <[UUID socket_1 := socket_1]> ∅;
       events := [EvRegisterSocket socket_1] |} /\
  deregisterSocket server_without_connectivity socket_1 serializer_1
    (sc_disconnected_at one_frame) (<[UUID socket_1 := socket_1]> ∅) =
    {| outcome := Returned tt;
       final_registry := delete (UUID socket_1) (<[UUID socket_1 := socket_1]> ∅);
       events := [EvDeregisterSocket socket_1] |}.
Proof.
  split.
  - apply (connectivity_topic_optional (E := testExternal) server_without_connectivity
             socket_1 serializer_1 ConnectivityEvent_CONNECTED
             (sc_connected_at one_frame) ∅).
    reflexivity.
  - apply (connectivity_topic_optional (E := testExternal) server_without_connectivity
             socket_1 serializer_1 ConnectivityEvent_DISCONNECTED
             (sc_disconnected_at one_frame) (<[UUID socket_1 := socket_1]> ∅)).
    reflexivity.
Defined.

(** * The envelope of a connectivity event *)

Lemma wraps_carries {E : External} (sm : SocketManager) (serializer : BinarySerializer)
    (status : ConnectivityEvent) (now : Timestamp) (record : Record_) :
  status = ConnectivityEvent_CONNECTED \/ status = ConnectivityEvent_DISCONNECTED ->
  wraps_connectivity sm serializer status now record ->
  carries_connectivity sm serializer status now record.
Proof.
  intros Hstatus (rid & payload & message & Hid & Hpayload & Hmessage & Hrecord).
  set (connectivityMessage :=
         {| Vin := DeviceID rid;
            ConnectionId := UUID sm;
            NetworkInterface := GetNetworkInterface sm;
            vc_CreatedAt := now;
            Status := status |}) in *.
  exists rid, connectivityMessage, payload,
    (connectivityStreamMessage sm rid connectivityMessage payload), message.
  split; [exact Hid|].
  do 5 (split; [reflexivity|]). split; [exact Hstatus|].
  split; [exact Hpayload|].
  do 5 (split; [reflexivity|]).
  split; [exact Hmessage|exact Hrecord].
Qed.

Lemma emission_produce {E : External} (s : Server) (sm : SocketManager)
    (serializer : BinarySerializer) (status : ConnectivityEvent) (now : Timestamp)
    (evs : list Event) (dispatcher : Producer) (record : Record_) :
  connectivity_emission s sm serializer status now evs ->
  EvProduce dispatcher record ∈ evs ->
  wraps_connectivity sm serializer status now record.
Proof.
  intros Hemission Hin. destruct Hemission as [Hrules| |producers record' Hrules Hwraps].
  - now apply elem_of_nil in Hin.
  - apply list_elem_of_singleton in Hin. discriminate.
  - apply list_elem_of_fmap in Hin. destruct Hin as (d & Heq & _).
    injection Heq as -> ->. exact Hwraps.
Qed.

(** The events of the emission of register and deregister, panic or not. *)
Lemma emission_events {E : External} (s : Server) (sm : SocketManager)
    (serializer : BinarySerializer) (status : ConnectivityEvent) (now : Timestamp)
    (msg : string) (first : M unit) (f : Registry -> Registry) (e : Event) :
  runs first f (Returned tt) [e] ->
  exists evs,
    (evs = [] \/ connectivity_emission s sm serializer status now evs) /\
    forall reg,
      events ((first ≫= fun _ =>
                 dispatchConnectivityEvent s sm serializer status now ≫=
                   log_connectivity_error msg sm status) reg) = e :: evs.
Proof.
  intros Hfirst.
  destruct (emission_runs s sm serializer status now msg)
    as [(_ & _ & Hrun)|(evs & Hevs & Hrun)].
  - exists []. split; [now left|]. intros reg.
    apply (runs_events _ f (Panicked nil_dereference)).
    apply (runs_bind _ _ f (fun reg => reg) tt _ [e] []); assumption.
  - exists evs. split; [now right|]. intros reg.
    apply (runs_events _ f (Returned tt)).
    apply (runs_bind _ _ f (fun reg => reg) tt _ [e] evs); assumption.
Qed.

(** C9. Every Record that register or deregister produces to a sink is
    the wrapping of a connectivity event: a StreamMessage with topic
    connectivity and device type vehicle_device, whose payload is the
    serialized VehicleConnectivity with vin the device id, connection_id
    the manager's UUID, its network interface, the creation timestamp and
    status CONNECTED or DISCONNECTED, and whose sender and device ids are
    those of the connection's identity. *)
Theorem connectivity_event_wrapping {E : External} (s : Server) (sm : SocketManager)
    (serializer : BinarySerializer) (now : Timestamp) (reg : Registry)
    (dispatcher : Producer) (record : Record_) :
  (EvProduce dispatcher record ∈ events (registerSocket s sm serializer now reg) ->
   carries_connectivity sm serializer ConnectivityEvent_CONNECTED now record) /\
  (EvProduce dispatcher record ∈ events (deregisterSocket s sm serializer now reg) ->
   carries_connectivity sm serializer ConnectivityEvent_DISCONNECTED now record).
Proof.
  split; intros Hin.
  - destruct (emission_events s sm serializer ConnectivityEvent_CONNECTED now
                "connectivity_registeration_error" _ _ _ (runs_RegisterSocket sm))
      as (evs & Hevs & Hevents).
    unfold registerSocket in Hin. rewrite Hevents in Hin.
    apply elem_of_cons in Hin. destruct Hin as [Heq|Hin]; [discriminate|].
    destruct Hevs as [->|Hemission]; [now apply elem_of_nil in Hin|].
    apply wraps_carries; [now left|]. eapply emission_produce; eassumption.
  - destruct (emission_events s sm serializer ConnectivityEvent_DISCONNECTED now
                "connectivity_deregisteration_error" _ _ _ (runs_DeregisterSocket sm))
      as (evs & Hevs & Hevents).
    unfold deregisterSocket in Hin. rewrite Hevents in Hin.
    apply elem_of_cons in Hin. destruct Hin as [Heq|Hin]; [discriminate|].
    destruct Hevs as [->|Hemission]; [now apply elem_of_nil in Hin|].
    apply wraps_carries; [now right|]. eapply emission_produce; eassumption.
Qed.

Lemma connectivity_event_wrapping_witness :
  carries_connectivity socket_1 serializer_1 ConnectivityEvent_CONNECTED
    (sc_connected_at one_frame) connected_record /\
  carries_connectivity socket_1 serializer_1 ConnectivityEvent_DISCONNECTED
    (sc_disconnected_at one_frame) disconnected_record.
Proof.
  split.
  - apply (proj1 (connectivity_event_wrapping (E := testExternal)
                    server_with_connectivity socket_1 serializer_1
                    (sc_connected_at one_frame) ∅ log_stub connected_record)).
    vm_compute. repeat constructor.
  - apply (proj2 (connectivity_event_wrapping (E := testExternal)
                    server_with_connectivity socket_1 serializer_1
                    (sc_disconnected_at one_frame) {[ "uuid-1" := socket_1 ]} log_stub
                    disconnected_record)).
    vm_compute. repeat constructor.
Defined.

(** * The ack router *)

(** An iteration never panics and leaves the registry as it is. *)
Lemma handleAck_registry (s : Server) (record : Record_) (reg : Registry) :
  outcome (handleAck s record reg) = Returned tt /\
  final_registry (handleAck s record reg) = reg.
Proof.
  unfold handleAck. destruct (Serializer record); [|split; reflexivity].
  unfold mbind, M_bind, bind, GetSocket. simpl.
  destruct (reg !! SocketID record); split; reflexivity.
Qed.

Lemma handleAcks_registry (s : Server) (ackChan : list Record_) (reg : Registry) :
  outcome (handleAcks s ackChan reg) = Returned tt /\
  final_registry (handleAcks s ackChan reg) = reg.
Proof.
  unfold handleAcks. induction ackChan as [|record rest [IHo IHr]]; simpl.
  - split; reflexivity.
  - destruct (handleAck_registry s record reg) as [Ho Hr].
    unfold mbind, M_bind, bind. cbv zeta. rewrite Ho, Hr. simpl.
    split; assumption.
Qed.

Lemma handleAcks_cons (s : Server) (record : Record_) (rest : list Record_)
    (reg : Registry) :
  events (handleAcks s (record :: rest) reg) =
    events (handleAck s record reg) ++ events (handleAcks s rest reg).
Proof.
  destruct (handleAck_registry s record reg) as [Ho Hr].
  unfold handleAcks. simpl. unfold mbind, M_bind, bind. cbv zeta.
  rewrite Ho, Hr. reflexivity.
Qed.

Lemma handleAcks_app (s : Server) (before after : list Record_) (reg : Registry) :
  events (handleAcks s (before ++ after) reg) =
    events (handleAcks s before reg) ++ events (handleAcks s after reg).
Proof.
  induction before as [|record rest IH].
  - reflexivity.
  - rewrite <- app_comm_cons, !handleAcks_cons, IH. apply app_assoc.
Qed.

(** C2. For every Record received on the ack channel that has a
    serializer attached: when the Registry holds the Record's connection
    id, the iteration increments reliable_ack once, with the labels
    record_type and dispatcher, and calls respondToVehicle once; when it
    does not, the iteration increments reliable_ack_miss once with the
    same labels and writes nothing; a tx_type without entry in
    ReliableAckSources gives the empty dispatcher label and is processed
    all the same. *)
Theorem ack_routing (s : Server) (record : Record_) (reg : Registry)
    (serializer : BinarySerializer) :
  Serializer record = Some serializer ->
  let labels : gmap string string :=
    {[ "record_type" := TxType record;
       "dispatcher" := default "" (reliableAckSources s !! TxType record) ]} in
  (forall socket, reg !! SocketID record = Some socket ->
     handleAck s record reg =
       {| outcome := Returned tt;
          final_registry := reg;
          events := [EvCounterInc "reliable_ack" labels;
                     EvRespondToVehicle socket record None] |}) /\
  (reg !! SocketID record = None ->
     handleAck s record reg =
       {| outcome := Returned tt;
          final_registry := reg;
          events := [EvCounterInc "reliable_ack_miss" labels] |}) /\
  (reliableAckSources s !! TxType record = None ->
     labels !! "dispatcher" = Some "" /\ labels !! "record_type" = Some (TxType record)) /\
  (forall before after,
     events (handleAcks s (before ++ record :: after) reg) =
       events (handleAcks s before reg) ++ events (handleAck s record reg) ++
       events (handleAcks s after reg)).
Proof.
  intros Hserializer labels. split; [|split; [|split]].
  - intros socket Hsocket. unfold handleAck. rewrite Hserializer.
    unfold mbind, M_bind, bind, GetSocket. simpl. rewrite Hsocket. reflexivity.
  - intros Hsocket. unfold handleAck. rewrite Hserializer.
    unfold mbind, M_bind, bind, GetSocket. simpl. rewrite Hsocket. reflexivity.
  - intros Hsource. subst labels. rewrite Hsource. simpl. split.
    + rewrite lookup_insert_ne by discriminate. apply lookup_singleton_eq.
    + apply lookup_insert_eq.
  - intros before after. now rewrite handleAcks_app, handleAcks_cons.
Qed.

Lemma ack_routing_witness :
  handleAck server_with_connectivity acked_record {[ "uuid-1" := socket_1 ]} =
    {| outcome := Returned tt;
       final_registry := {[ "uuid-1" := socket_1 ]};
       events := [EvCounterInc "reliable_ack"
                    {[ "record_type" := "V"; "dispatcher" := "kafka" ]};
                  EvRespondToVehicle socket_1 acked_record None] |} /\
  handleAck server_with_connectivity acked_record ∅ =
    {| outcome := Returned tt;
       final_registry := ∅;
       events := [EvCounterInc "reliable_ack_miss"
                    {[ "record_type" := "V"; "dispatcher" := "kafka" ]}] |} /\
  handleAck server_with_connectivity unlisted_record ∅ =
    {| outcome := Returned tt;
       final_registry := ∅;
       events := [EvCounterInc "reliable_ack_miss"
                    {[ "record_type" := "alerts"; "dispatcher" := "" ]}] |} /\
  ({[ "record_type" := "alerts"; "dispatcher" := "" ]} : gmap string string)
    !! "dispatcher" = Some "".
Proof.
  split; [|split; [|split]].
  - apply (ack_routing server_with_connectivity acked_record {[ "uuid-1" := socket_1 ]}
             serializer_1 eq_refl).
    reflexivity.
  - apply (ack_routing server_with_connectivity acked_record ∅ serializer_1 eq_refl).
    reflexivity.
  - apply (ack_routing server_with_connectivity unlisted_record ∅ serializer_1 eq_refl).
    reflexivity.
  - apply (ack_routing server_with_connectivity unlisted_record ∅ serializer_1 eq_refl).
    reflexivity.
Defined.

(** * The life of a connection *)

Lemma is_log_member (logs : list Event) (e : Event) :
  Forall is_log logs -> e ∈ logs -> is_log e.
Proof. intros Hlogs Hin. rewrite Forall_forall in Hlogs. now apply Hlogs. Qed.

Lemma identity_error_log_is_log (err : option error) :
  Forall is_log (identity_error_log err).
Proof. destruct err; repeat constructor. Qed.

(** Before register the handler has only logged and upgraded. *)
Lemma no_loop_start_before_register (logs : list Event) (conn : WebSocket)
    (err : option error) (tail : list Event) (uuid : string) :
  Forall is_log logs ->
  (forall e, e ∈ tail -> e <> EvReadLoopStart uuid) ->
  EvReadLoopStart uuid ∉ logs ++ [EvUpgraded conn] ++ identity_error_log err ++ tail.
Proof.
  intros Hlogs Htail Hin.
  apply elem_of_app in Hin. destruct Hin as [Hin|Hin].
  { exact (is_log_member _ _ Hlogs Hin). }
  apply elem_of_cons in Hin. destruct Hin as [Heq|Hin]; [discriminate|].
  apply elem_of_app in Hin. destruct Hin as [Hin|Hin].
  { exact (is_log_member _ _ (identity_error_log_is_log err) Hin). }
  now apply (Htail _ Hin).
Qed.

Lemma emission_one_record {E : External} (s : Server) (sm : SocketManager)
    (serializer : BinarySerializer) (status : ConnectivityEvent) (now : Timestamp)
    (evs : list Event) :
  connectivity_emission s sm serializer status now evs ->
  (forall d1 r1 d2 r2, EvProduce d1 r1 ∈ evs -> EvProduce d2 r2 ∈ evs -> r1 = r2) /\
  (forall producers record,
     DispatchRules s !! connectitivityTopic = Some producers ->
     wraps_connectivity sm serializer status now record ->
     evs = map (fun dispatcher => EvProduce dispatcher record) producers).
Proof.
  intros Hemission. split.
  - intros d1 r1 d2 r2 H1 H2.
    eapply wraps_connectivity_unique; eapply emission_produce; eassumption.
  - intros producers record Hrules Hwraps.
    destruct Hemission as [Hnone|ps rid msg err info Hps Hid Hno|ps record' Hps Hwraps'].
    + congruence.
    + now destruct (Hno record).
    + rewrite Hrules in Hps. injection Hps as <-.
      now rewrite (wraps_connectivity_unique _ _ _ _ _ _ Hwraps Hwraps').
Qed.


(** The deferred deregistration. In every invocation of the handler in
    which the upgrade succeeds:
    when the read loop starts, registerSocket has run before it, and
    whichever way the loop ends, return or panic, deregisterSocket runs
    after it, with its DISCONNECTED emission, so that the Registry holds
    no entry for the connection afterwards; and whenever the handler
    returns, the Registry holds no entry for the connection. *)
Theorem deregister_on_every_exit {E : External} (s : Server) (config : Config)
    (sc : Scenario) (r : Request) (reg : Registry) (conn : WebSocket) :
  sc_upgrade sc = UpgradeOk conn ->
  let run := ServeBinaryWs s config sc r reg in
  (EvReadLoopStart (sc_uuid sc) ∈ events run ->
   exists sm before cs tele ds,
     let serializer := NewBinarySerializer (requestIdentity sm) (DispatchRules s) in
     UUID sm = sc_uuid sc /\
     events run =
       before ++ (EvRegisterSocket sm :: cs) ++
       ([EvReadLoopStart (sc_uuid sc)] ++ tele ++ [EvReadLoopExit (sc_uuid sc)]) ++
       (EvDeregisterSocket sm :: ds) /\
     (EvReadLoopStart (sc_uuid sc) ∉ before) /\
     connectivity_emission s sm serializer ConnectivityEvent_CONNECTED
       (sc_connected_at sc) cs /\
     Forall (is_telemetry sm serializer) tele /\
     connectivity_emission s sm serializer ConnectivityEvent_DISCONNECTED
       (sc_disconnected_at sc) ds /\
     outcome run = loop_outcome (sc_loop_end sc) /\
     final_registry run !! sc_uuid sc = None) /\
  (outcome run = Returned tt -> final_registry run !! sc_uuid sc = None).
Proof.
  intros Hup run.
  destruct (extractIdentity r config) as [[rid err]|reason] eqn:Hid.
  2: { destruct (ServeBinaryWs_identity_panics s config sc r conn reason Hup Hid)
         as (logs & Hlogs & Hrun).
       subst run. rewrite Hrun. simpl. split; [|discriminate].
       intros Hin. exfalso.
       apply elem_of_app in Hin. destruct Hin as [Hin|Hin].
       - exact (is_log_member _ _ Hlogs Hin).
       - apply list_elem_of_singleton in Hin. discriminate. }
  set (sm := NewSocketManager sc rid conn config).
  assert (Hcases : can_emit s sm \/
            (rid = None /\ is_Some (DispatchRules s !! connectitivityTopic))).
  { destruct rid as [rid|].
    - left. left. simpl. eauto.
    - destruct (DispatchRules s !! connectitivityTopic) eqn:Hrules.
      + right. eauto.
      + left. now right. }
  destruct Hcases as [Hcan|[-> Hrules]].
  - destruct (ServeBinaryWs_runs s config sc r conn rid err Hup Hid Hcan)
      as (logs & cs & tele & ds & Hlogs & Hcs & Htele & Hds & Hrun).
    pose proof (runs_outcome _ _ _ _ reg Hrun) as Houtcome.
    pose proof (runs_events _ _ _ _ reg Hrun) as Hevents.
    pose proof (runs_registry _ _ _ _ reg Hrun) as Hregistry.
    assert (Hgone : final_registry run !! sc_uuid sc = None).
    { subst run. rewrite Hregistry. apply lookup_delete_eq. }
    split; [|intros _; exact Hgone].
    intros _. exists sm, (logs ++ [EvUpgraded conn] ++ identity_error_log err), cs, tele, ds.
    cbv zeta. split; [reflexivity|]. split.
    { subst run. rewrite Hevents, <- !app_assoc. reflexivity. }
    split.
    { rewrite <- (app_nil_r (identity_error_log err)).
      apply no_loop_start_before_register; [assumption|].
      intros e He. now apply elem_of_nil in He. }
    do 3 (split; [assumption|]). split; [exact Houtcome|exact Hgone].
  - destruct (ServeBinaryWs_register_panics s config sc r conn err Hup Hid Hrules)
      as (logs & Hlogs & Hrun).
    subst run. rewrite Hrun. simpl. split; [|discriminate].
    intros Hin. exfalso. revert Hin.
    apply no_loop_start_before_register; [assumption|].
    intros e He. apply list_elem_of_singleton in He. now subst e.
Qed.

Lemma deregister_on_every_exit_witness :
  (outcome (ServeBinaryWs server_with_connectivity direct_tls one_frame_then_panic
              vehicle_request ∅) = Panicked "read loop" /\
   final_registry (ServeBinaryWs server_with_connectivity direct_tls one_frame_then_panic
                     vehicle_request ∅) !! "uuid-1" = None) /\
  final_registry (ServeBinaryWs server_with_connectivity direct_tls one_frame
                    vehicle_request ∅) !! "uuid-1" = None.
Proof.
  split.
  - destruct (proj1 (deregister_on_every_exit (E := testExternal) server_with_connectivity
                       direct_tls one_frame_then_panic vehicle_request ∅
                       {| ws_handle := 1 |} eq_refl))
      as (sm & before & cs & tele & ds & _ & _ & _ & _ & _ & _ & Houtcome & Hregistry).
    + vm_compute. repeat constructor.
    + split; [exact Houtcome|exact Hregistry].
  - apply (proj2 (deregister_on_every_exit (E := testExternal) server_with_connectivity
                    direct_tls one_frame vehicle_request ∅ {| ws_handle := 1 |} eq_refl)).
    reflexivity.
Defined.

(** C7, where the code breaks it. A request without certificate header in
    RFC 9440 mode, to a server whose DispatchRules have the connectivity
    topic: the upgrade succeeds, the identity extraction returns the
    missing_certificate error and no identity, and the handler goes on.
    registerSocket puts the manager in the Registry and then panics on the
    nil identity in the CONNECTED emission, before the handler has
    deferred deregisterSocket.  So the read loop never starts,
    deregisterSocket never runs, nothing is produced, and the Registry,
    empty before, holds the entry of the connection when the handler has
    ended.  On the request with the empty PEM block the extraction itself
    panics after the upgrade: neither registerSocket nor deregisterSocket
    is executed. *)
Theorem registry_keeps_entry_of_ended_handler :
  let conn := {| ws_handle := 1 |} in
  let sm := NewSocketManager one_frame None conn rfc9440_mode in
  let run := ServeBinaryWs server_with_connectivity rfc9440_mode one_frame
               bare_request ∅ in
  let run' := ServeBinaryWs server_with_connectivity rfc9440_mode one_frame
                empty_block_request ∅ in
  (sc_upgrade one_frame = UpgradeOk conn /\
   is_Some (DispatchRules server_with_connectivity !! connectitivityTopic) /\
   extractIdentity bare_request rfc9440_mode =
     Returned (None, Some (ErrText "missing_certificate_error")) /\
   events run =
     [EvLog "client_certificate_not_found" ∅; EvUpgraded conn;
      EvErrorLog "extract_sender_id_err" (ErrText "missing_certificate_error") ∅;
      EvRegisterSocket sm] /\
   outcome run = Panicked nil_dereference /\
   (EvReadLoopStart (sc_uuid one_frame) ∉ events run) /\
   (forall sm', EvDeregisterSocket sm' ∉ events run) /\
   produces (events run) = [] /\
   (∅ : Registry) !! sc_uuid one_frame = None /\
   final_registry run !! sc_uuid one_frame = Some sm) /\
  (extractIdentity empty_block_request rfc9440_mode = Panicked index_out_of_range /\
   events run' = [EvLog "client_certificate_not_found" ∅; EvUpgraded conn] /\
   outcome run' = Panicked index_out_of_range /\
   final_registry run' !! sc_uuid one_frame = None).
Proof.
  cbv zeta.
  assert (Hevents :
    events (ServeBinaryWs server_with_connectivity rfc9440_mode one_frame
              bare_request ∅) =
      [EvLog "client_certificate_not_found" ∅; EvUpgraded {| ws_handle := 1 |};
       EvErrorLog "extract_sender_id_err" (ErrText "missing_certificate_error") ∅;
       EvRegisterSocket (NewSocketManager one_frame None {| ws_handle := 1 |}
                           rfc9440_mode)]) by reflexivity.
  split.
  - split; [reflexivity|]. split; [exists [log_stub]; reflexivity|].
    split; [reflexivity|]. split; [exact Hevents|]. split; [reflexivity|].
    split; [|split; [|split; [|split]]].
    + rewrite Hevents. intros Hin.
      repeat (apply elem_of_cons in Hin; destruct Hin as [Heq|Hin]; [discriminate|]).
      now apply elem_of_nil in Hin.
    + intros sm'. rewrite Hevents. intros Hin.
      repeat (apply elem_of_cons in Hin; destruct Hin as [Heq|Hin]; [discriminate|]).
      now apply elem_of_nil in Hin.
    + rewrite Hevents. reflexivity.
    + reflexivity.
    + reflexivity.
  - split; [reflexivity|]. split; [reflexivity|]. split; reflexivity.
Qed.

(** C3, as the code has it. For every connection that reaches its read
    loop, the events of the handler are, in this order: register, the
    CONNECTED emission, the read loop with the telemetry of the
    connection, deregister, the DISCONNECTED emission.  Each emission
    produces at most one Record; it produces that Record once to each
    producer of the connectivity topic when the topic is configured and
    the Record can be built, and nothing otherwise. *)
Theorem connectivity_around_telemetry {E : External} (s : Server) (config : Config)
    (sc : Scenario) (r : Request) (reg : Registry) (conn : WebSocket)
    (rid : option RequestIdentity) (err : option error) :
  sc_upgrade sc = UpgradeOk conn ->
  extractIdentity r config = Returned (rid, err) ->
  let sm := NewSocketManager sc rid conn config in
  let serializer := NewBinarySerializer rid (DispatchRules s) in
  can_emit s sm ->
  exists before cs tele ds,
    events (ServeBinaryWs s config sc r reg) =
      before ++ (EvRegisterSocket sm :: cs) ++
      ([EvReadLoopStart (UUID sm)] ++ tele ++ [EvReadLoopExit (UUID sm)]) ++
      (EvDeregisterSocket sm :: ds) /\
    produces before = [] /\
    Forall (is_telemetry sm serializer) tele /\
    connectivity_emission s sm serializer ConnectivityEvent_CONNECTED
      (sc_connected_at sc) cs /\
    connectivity_emission s sm serializer ConnectivityEvent_DISCONNECTED
      (sc_disconnected_at sc) ds /\
    (forall d1 r1 d2 r2, EvProduce d1 r1 ∈ cs -> EvProduce d2 r2 ∈ cs -> r1 = r2) /\
    (forall d1 r1 d2 r2, EvProduce d1 r1 ∈ ds -> EvProduce d2 r2 ∈ ds -> r1 = r2) /\
    (forall producers record,
       DispatchRules s !! connectitivityTopic = Some producers ->
       wraps_connectivity sm serializer ConnectivityEvent_CONNECTED
         (sc_connected_at sc) record ->
       cs = map (fun dispatcher => EvProduce dispatcher record) producers) /\
    (forall producers record,
       DispatchRules s !! connectitivityTopic = Some producers ->
       wraps_connectivity sm serializer ConnectivityEvent_DISCONNECTED
         (sc_disconnected_at sc) record ->
       ds = map (fun dispatcher => EvProduce dispatcher record) producers).
Proof.
  intros Hup Hid sm serializer Hcan.
  destruct (ServeBinaryWs_runs s config sc r conn rid err Hup Hid Hcan)
    as (logs & cs & tele & ds & Hlogs & Hcs & Htele & Hds & Hrun).
  exists (logs ++ [EvUpgraded conn] ++ identity_error_log err), cs, tele, ds.
  split.
  { rewrite (runs_events _ _ _ _ reg Hrun), <- !app_assoc. reflexivity. }
  split.
  { assert (Hnone : forall l, Forall is_log l -> produces l = []).
    { induction l as [|e l IH]; [reflexivity|].
      intros Hall. inversion Hall as [|? ? He Hl]; subst.
      unfold produces in *. simpl. destruct e; try contradiction; now apply IH. }
    unfold produces in *. rewrite !omap_app. rewrite (Hnone _ Hlogs).
    rewrite (Hnone _ (identity_error_log_is_log err)). reflexivity. }
  do 3 (split; [assumption|]).
  destruct (emission_one_record _ _ _ _ _ _ Hcs) as [Hone_cs Hall_cs].
  destruct (emission_one_record _ _ _ _ _ _ Hds) as [Hone_ds Hall_ds].
  split; [exact Hone_cs|]. split; [exact Hone_ds|]. split; [exact Hall_cs|exact Hall_ds].
Qed.

Lemma connectivity_around_telemetry_witness :
  exists before tele,
    events (ServeBinaryWs server_with_connectivity direct_tls one_frame
              vehicle_request ∅) =
      before ++ [EvRegisterSocket socket_1; EvProduce log_stub connected_record] ++
      ([EvReadLoopStart "uuid-1"] ++ tele ++ [EvReadLoopExit "uuid-1"]) ++
      [EvDeregisterSocket socket_1; EvProduce log_stub disconnected_record].
Proof.
  destruct (connectivity_around_telemetry (E := testExternal) server_with_connectivity
              direct_tls one_frame vehicle_request ∅ {| ws_handle := 1 |}
              (Some vehicle_identity) None eq_refl eq_refl)
    as (before & cs & tele & ds & Hevents & _ & _ & _ & _ & _ & _ & Hcs & Hds).
  - left. simpl. eauto.
  - exists before, tele. rewrite Hevents.
    rewrite (Hcs [log_stub] connected_record); cycle 1.
    { reflexivity. }
    { exists vehicle_identity. do 2 eexists. cbv zeta. repeat split. }
    rewrite (Hds [log_stub] disconnected_record); cycle 1.
    { reflexivity. }
    { exists vehicle_identity. do 2 eexists. cbv zeta. repeat split. }
    reflexivity.
Defined.

(** C3, as stated, fails where the connectivity topic is not configured:
    the connection registers, runs its read loop and deregisters, the only
    Record produced is the telemetry Record of its frame, and that is no
    connectivity Record of any status. *)
Lemma no_connectivity_record_without_topic :
  let run := ServeBinaryWs server_without_connectivity direct_tls one_frame
               vehicle_request ∅ in
  outcome run = Returned tt /\
  EvRegisterSocket socket_1 ∈ events run /\
  EvDeregisterSocket socket_1 ∈ events run /\
  produces (events run) = [(kafka_stub, telemetry_record)] /\
  forall status now,
    ~ wraps_connectivity socket_1 serializer_2 status now telemetry_record.
Proof.
  cbv zeta. split; [reflexivity|].
  split; [vm_compute; repeat constructor|].
  split; [vm_compute; repeat constructor|].
  split; [reflexivity|].
  intros status now (rid & payload & message & Hid & Hpayload & Hmessage & Hrecord).
  cbv zeta in *. injection Hid as <-.
  injection Hpayload as <-. injection Hmessage as <-.
  cbv in Hrecord. discriminate Hrecord.
Qed.

(** * Identity failures *)

(** With connectivity configured and no identity, register panics on the
    nil identity after the Registry insertion and before the deferred
    deregister is set up: the manager stays registered. *)
Lemma register_without_identity_panics {E : External} (s : Server) (config : Config)
    (sc : Scenario) (r : Request) (reg : Registry) (conn : WebSocket)
    (err : option error) :
  sc_upgrade sc = UpgradeOk conn ->
  extractIdentity r config = Returned (None, err) ->
  is_Some (DispatchRules s !! connectitivityTopic) ->
  let run := ServeBinaryWs s config sc r reg in
  outcome run = Panicked nil_dereference /\
  final_registry run !! sc_uuid sc = Some (NewSocketManager sc None conn config).
Proof.
  intros Hup Hid Hrules run.
  destruct (ServeBinaryWs_register_panics s config sc r conn err Hup Hid Hrules)
    as (logs & Hlogs & Hrun).
  subst run. rewrite Hrun. simpl. split; [reflexivity|apply lookup_insert_eq].
Qed.







(** * More on identity extraction *)

Lemma extractIdentity_of_cert {E : External} (r : Request) (config : Config)
    (res : Outcome CertAndErr) :
  extractCert r config = res ->
  extractIdentity r config =
    match res with
    | Panicked reason => Panicked reason
    | Returned (_, Some err) => Returned (None, Some err)
    | Returned (None, None) => Panicked nil_dereference
    | Returned (Some cert, None) => Returned (identityFromCert cert)
    end.
Proof. intros <-. reflexivity. Qed.

(** X1. In AWS ALB pass-through mode the identity comes from the header
    X-Amzn-Mtls-Clientcert: a header that is absent or holds the empty
    string is the missing_certificate error, a value that cannot be
    URL-unescaped is the parse error wrapping the cause, and a certificate
    that is returned is the first one parsed from the first PEM block of
    the unescaped value. *)
Theorem alb_extraction {E : External} (r : Request) (config : Config) :
  cfg_TLSPassThrough config = Some AWSApplicationLoadBalancer ->
  (Header_Get (Header r) "X-Amzn-Mtls-Clientcert" = "" ->
     extractIdentity r config =
       Returned (None, Some (ErrText "missing_certificate_error"))) /\
  (forall cause,
     Header_Get (Header r) "X-Amzn-Mtls-Clientcert" <> "" ->
     url_QueryUnescape (Header_Get (Header r) "X-Amzn-Mtls-Clientcert") = Err cause ->
     extractIdentity r config =
       Returned (None, Some (ErrWrap "failed to parse certificates: " (Some cause))) /\
     parse_certificate (ErrWrap "failed to parse certificates: " (Some cause))) /\
  (forall cert err,
     extractCertAWSALB r = Returned (Some cert, err) ->
     exists rest block others,
       url_QueryUnescape (Header_Get (Header r) "X-Amzn-Mtls-Clientcert") = Ok rest /\
       pem_Decode (bytes_of rest) = Some block /\
       x509_ParseCertificates (block_Bytes block) = Ok (cert :: others) /\
       err = None /\
       extractIdentity r config = Returned (identityFromCert cert)).
Proof.
  intros Hmode.
  assert (Hcert : extractCert r config = extractCertAWSALB r).
  { unfold extractCert. now rewrite Hmode. }
  split; [|split].
  - intros Hraw. rewrite (extractIdentity_of_cert r config _ Hcert).
    unfold extractCertAWSALB. rewrite Hraw. reflexivity.
  - intros cause Hraw Hunescape. split.
    + rewrite (extractIdentity_of_cert r config _ Hcert).
      unfold extractCertAWSALB. rewrite (eqb_empty_false _ Hraw), Hunescape. reflexivity.
    + exists (Error cause). reflexivity.
  - intros cert err Hreturned.
    rewrite (extractIdentity_of_cert r config _ Hcert), Hreturned.
    revert Hreturned. unfold extractCertAWSALB.
    destruct (String.eqb _ ""); [discriminate|].
    destruct (url_QueryUnescape _) as [rest|cause]; [|discriminate].
    destruct (pem_Decode _) as [block|] eqn:Hpem; [|discriminate].
    destruct (x509_ParseCertificates _) as [[|c others]|cause] eqn:Hparse;
      try discriminate.
    simpl. intros Heq. injection Heq as -> <-.
    exists rest, block, others. repeat split; assumption.
Qed.

Lemma alb_extraction_witness :
  extractIdentity bare_request alb_mode =
    Returned (None, Some (ErrText "missing_certificate_error")) /\
  extractIdentity empty_header_request alb_mode =
    Returned (None, Some (ErrText "missing_certificate_error")) /\
  extractIdentity garbled_alb_request alb_mode =
    Returned (None, Some (ErrWrap "failed to parse certificates: "
                            (Some (ErrText "invalid URL escape")))) /\
  extractIdentity proxied_vehicle_alb_request alb_mode =
    Returned (identityFromCert vehicle_cert).
Proof.
  split; [|split; [|split]].
  - apply (alb_extraction (E := testExternal) bare_request alb_mode eq_refl).
    reflexivity.
  - apply (alb_extraction (E := testExternal) empty_header_request alb_mode eq_refl).
    reflexivity.
  - refine (proj1 (proj1 (proj2 (alb_extraction (E := testExternal) garbled_alb_request
                                   alb_mode eq_refl))
                     (ErrText "invalid URL escape") _ _));
      [discriminate|reflexivity].
  - destruct (proj2 (proj2 (alb_extraction (E := testExternal)
               proxied_vehicle_alb_request alb_mode eq_refl)) vehicle_cert None eq_refl)
      as (rest & block & others & _ & _ & _ & _ & Hid).
    exact Hid.
Defined.

(** X2. An extractor that returns hands back a certificate or an error,
    never neither and never both, in all three modes; so [extractIdentity]
    never passes a nil certificate on, and panics only where the extractor
    panics.  When the decoded header holds no PEM block, the error
    returned is not nil although it wraps the nil error of the decoding. *)
Theorem extractors_never_nil_nil {E : External} (r : Request) (config : Config) :
  (forall res, extractCert r config = Returned res -> cert_xor_err res) /\
  (forall reason,
     extractIdentity r config = Panicked reason ->
     extractCert r config = Panicked reason) /\
  (forall rest,
     Header_Get (Header r) "Client-Cert-Chain" <> "" ->
     base64_DecodeString (Header_Get (Header r) "Client-Cert-Chain") = Ok rest ->
     pem_Decode rest = None ->
     exists err,
       extractCertRFC2440 r = Returned (None, Some err) /\
       Error err = "failed to parse certificates: %!w(<nil>)") /\
  (forall rest,
     Header_Get (Header r) "X-Amzn-Mtls-Clientcert" <> "" ->
     url_QueryUnescape (Header_Get (Header r) "X-Amzn-Mtls-Clientcert") = Ok rest ->
     pem_Decode (bytes_of rest) = None ->
     exists err,
       extractCertAWSALB r = Returned (None, Some err) /\
       Error err = "failed to parse certificates: %!w(<nil>)").
Proof.
  split; [|split; [|split]].
  - intros res. apply extractCert_xor.
  - intros reason. unfold extractIdentity.
    destruct (extractCert r config) as [[[cert|] [err|]]|reason'] eqn:Hcert;
      try discriminate.
    + apply extractCert_xor in Hcert. contradiction.
    + now intros [= ->].
  - intros rest Hraw Hdecode Hpem.
    exists (ErrWrap "failed to parse certificates: " None). split; [|reflexivity].
    now apply extractCertRFC2440_nil_block with (rest := rest).
  - intros rest Hraw Hunescape Hpem.
    exists (ErrWrap "failed to parse certificates: " None). split; [|reflexivity].
    unfold extractCertAWSALB. now rewrite (eqb_empty_false _ Hraw), Hunescape, Hpem.
Qed.

Lemma extractors_never_nil_nil_witness :
  cert_xor_err (Some vehicle_cert, None) /\
  extractCert bare_request direct_tls = Panicked nil_dereference /\
  (exists err,
     extractCertRFC2440 (E := blocklessExternal) garbled_request =
       Returned (None, Some err) /\
     Error err = "failed to parse certificates: %!w(<nil>)") /\
  (exists err,
     extractCertAWSALB (E := blocklessExternal) garbled_alb_request =
       Returned (None, Some err) /\
     Error err = "failed to parse certificates: %!w(<nil>)").
Proof.
  split; [|split; [|split]].
  - apply (proj1 (extractors_never_nil_nil (E := testExternal) vehicle_request
                    direct_tls)).
    reflexivity.
  - apply (proj1 (proj2 (extractors_never_nil_nil (E := testExternal) bare_request
                           direct_tls))).
    reflexivity.
  - apply (proj1 (proj2 (proj2 (extractors_never_nil_nil (E := blocklessExternal)
                                  garbled_request rfc9440_mode)))
             (bytes_of "%%%")); [discriminate|reflexivity|reflexivity].
  - apply (proj2 (proj2 (proj2 (extractors_never_nil_nil (E := blocklessExternal)
                                  garbled_alb_request alb_mode)))
             "%zz"); [discriminate|reflexivity|reflexivity].
Defined.

(** X3. [extractIdentity], when it returns, returns an identity or an
    error, never both and never neither.  The error is the extractor's
    error, handed on as it is, or the create_identity error, which names
    the issuer and the subject common name of the certificate and the
    cause. *)
Theorem identity_xor_error {E : External} (r : Request) (config : Config)
    (rid : option RequestIdentity) (err : option error) :
  extractIdentity r config = Returned (rid, err) ->
  (exists identity_, rid = Some identity_ /\ err = None) \/
  (exists e,
     rid = None /\ err = Some e /\
     (extractCert r config = Returned (None, Some e) \/
      exists cert cause,
        extractCert r config = Returned (Some cert, None) /\
        CreateIdentityFromCert cert = Err cause /\
        e = ErrText ("create_identity issuer: " +:+ CommonName (Issuer cert) +:+
                     ", common_name: " +:+ CommonName (Subject cert) +:+
                     ", err: " +:+ Error cause))).
Proof.
  unfold extractIdentity.
  destruct (extractCert r config) as [[[cert|] [e|]]|reason] eqn:Hcert;
    try discriminate.
  - apply extractCert_xor in Hcert. contradiction.
  - unfold identityFromCert.
    destruct (CreateIdentityFromCert cert) as [[clientType deviceID]|cause] eqn:Hcreate;
      intros [= <- <-].
    + left. eauto.
    + right. eexists. split; [reflexivity|]. split; [reflexivity|].
      right. exists cert, cause. repeat split. exact Hcreate.
  - intros [= <- <-]. right. exists e. repeat split. now left.
Qed.

Lemma identity_xor_error_witness :
  ((exists identity_, Some vehicle_identity = Some identity_ /\ @None error = None) \/
   (exists e,
      Some vehicle_identity = None /\ None = Some e /\
      (extractCert vehicle_request direct_tls = Returned (None, Some e) \/
       exists cert cause,
         extractCert vehicle_request direct_tls = Returned (Some cert, None) /\
         CreateIdentityFromCert cert = Err cause /\
         e = ErrText ("create_identity issuer: " +:+ CommonName (Issuer cert) +:+
                      ", common_name: " +:+ CommonName (Subject cert) +:+
                      ", err: " +:+ Error cause)))) /\
  extractIdentity stray_request direct_tls =
    Returned (None, Some (ErrText
      "create_identity issuer: , common_name: VIN999, err: unknown issuer")).
Proof.
  split.
  - apply (identity_xor_error (E := testExternal) vehicle_request direct_tls).
    reflexivity.
  - destruct (identity_xor_error (E := testExternal) stray_request direct_tls None
                (Some (ErrText
                   "create_identity issuer: , common_name: VIN999, err: unknown issuer"))
                eq_refl) as [(identity_ & Hsome & _)|_].
    + discriminate Hsome.
    + reflexivity.
Defined.

(** X4. The identity depends only on the source of the configured mode.
    In direct TLS mode the headers of the request are not read: two
    requests with the same TLS state get the same result.  In a
    pass-through mode only the mode's own header is read: the TLS state of
    the request, even a missing one, and the other header change
    nothing. *)
Theorem identity_reads_only_the_configured_source {E : External}
    (r1 r2 : Request) (config : Config) :
  (cfg_TLSPassThrough config = None ->
   TLS r1 = TLS r2 ->
   extractIdentity r1 config = extractIdentity r2 config) /\
  (cfg_TLSPassThrough config = Some RFC9440 ->
   Header_Get (Header r1) "Client-Cert-Chain" =
     Header_Get (Header r2) "Client-Cert-Chain" ->
   extractIdentity r1 config = extractIdentity r2 config) /\
  (cfg_TLSPassThrough config = Some AWSApplicationLoadBalancer ->
   Header_Get (Header r1) "X-Amzn-Mtls-Clientcert" =
     Header_Get (Header r2) "X-Amzn-Mtls-Clientcert" ->
   extractIdentity r1 config = extractIdentity r2 config).
Proof.
  split; [|split]; intros Hmode Hsame;
    unfold extractIdentity, extractCert; rewrite Hmode; simpl.
  - unfold extractCertFromTLS. now rewrite Hsame.
  - unfold extractCertRFC2440. now rewrite Hsame.
  - unfold extractCertAWSALB. now rewrite Hsame.
Qed.

Lemma identity_reads_only_the_configured_source_witness :
  extractIdentity spoofing_request direct_tls =
    extractIdentity vehicle_request direct_tls /\
  extractIdentity proxied_with_peer_request rfc9440_mode =
    extractIdentity proxied_vehicle_request rfc9440_mode /\
  extractIdentity spoofing_request alb_mode =
    extractIdentity garbled_alb_request alb_mode.
Proof.
  split; [|split].
  - apply (proj1 (identity_reads_only_the_configured_source (E := testExternal)
                    spoofing_request vehicle_request direct_tls)); reflexivity.
  - apply (proj1 (proj2 (identity_reads_only_the_configured_source (E := testExternal)
                           proxied_with_peer_request proxied_vehicle_request
                           rfc9440_mode))); reflexivity.
  - apply (proj2 (proj2 (identity_reads_only_the_configured_source (E := testExternal)
                           spoofing_request garbled_alb_request alb_mode)));
      reflexivity.
Defined.

(** X5. The two pass-through modes agree: when the base64 decoding of the
    Client-Cert-Chain header of one request and the URL-unescaping of the
    X-Amzn-Mtls-Clientcert header of another give the same bytes, the two
    extractors return the same certificate or the same error, or panic
    alike, and so do the identities. *)
Theorem pass_through_modes_agree {E : External} (r1 r2 : Request)
    (config1 config2 : Config) (rest : bytes) (text : string) :
  cfg_TLSPassThrough config1 = Some RFC9440 ->
  cfg_TLSPassThrough config2 = Some AWSApplicationLoadBalancer ->
  Header_Get (Header r1) "Client-Cert-Chain" <> "" ->
  base64_DecodeString (Header_Get (Header r1) "Client-Cert-Chain") = Ok rest ->
  Header_Get (Header r2) "X-Amzn-Mtls-Clientcert" <> "" ->
  url_QueryUnescape (Header_Get (Header r2) "X-Amzn-Mtls-Clientcert") = Ok text ->
  bytes_of text = rest ->
  extractCertRFC2440 r1 = extractCertAWSALB r2 /\
  extractIdentity r1 config1 = extractIdentity r2 config2.
Proof.
  intros Hmode1 Hmode2 Hraw1 Hdecode Hraw2 Hunescape Hsame.
  assert (Hcert : extractCertRFC2440 r1 = extractCertAWSALB r2).
  { unfold extractCertRFC2440, extractCertAWSALB.
    rewrite (eqb_empty_false _ Hraw1), (eqb_empty_false _ Hraw2), Hdecode, Hunescape.
    now rewrite Hsame. }
  split; [exact Hcert|].
  unfold extractIdentity, extractCert. rewrite Hmode1, Hmode2. simpl.
  now rewrite Hcert.
Qed.

Lemma pass_through_modes_agree_witness :
  extractCertRFC2440 proxied_vehicle_request =
    extractCertAWSALB proxied_vehicle_alb_request /\
  extractIdentity proxied_vehicle_request rfc9440_mode =
    extractIdentity proxied_vehicle_alb_request alb_mode.
Proof.
  apply (pass_through_modes_agree (E := testExternal) proxied_vehicle_request
           proxied_vehicle_alb_request rfc9440_mode alb_mode
           (bytes_of vehicle_pem) vehicle_pem);
    try reflexivity; discriminate.
Defined.

(** * More on the handler *)

Lemma log_client_certificate_runs (r : Request) :
  runs (log_client_certificate r) (fun reg => reg) (Returned tt)
    (events (log_client_certificate r ∅)).
Proof.
  destruct (runs_log_client_certificate r) as (logs & _ & Hrun).
  now rewrite (runs_events _ _ _ _ ∅ Hrun).
Qed.

Lemma log_client_certificate_events (r : Request) (reg : Registry) :
  events (log_client_certificate r reg) = events (log_client_certificate r ∅).
Proof. apply (runs_events _ _ _ _ reg (log_client_certificate_runs r)). Qed.

Lemma log_client_certificate_is_log (r : Request) (reg : Registry) :
  Forall is_log (events (log_client_certificate r reg)).
Proof.
  destruct (runs_log_client_certificate r) as (logs & Hlogs & Hrun).
  now rewrite (runs_events _ _ _ _ reg Hrun).
Qed.

(** The handler up to the identity extraction, when the upgrade succeeds. *)
Lemma ServeBinaryWs_upgraded {E : External} (s : Server) (config : Config)
    (sc : Scenario) (r : Request) (conn : WebSocket) f o evs :
  sc_upgrade sc = UpgradeOk conn ->
  runs (extracted ← lift (extractIdentity r config);
        let '(requestIdentity, err) := extracted in
        match err with
        | Some err => ErrorLog "extract_sender_id_err" err ∅
        | None => mret tt
        end;;
        let binarySerializer := NewBinarySerializer requestIdentity (DispatchRules s) in
        let socketManager := NewSocketManager sc requestIdentity conn config in
        registerSocket s socketManager binarySerializer (sc_connected_at sc);;
        defer_ (deregisterSocket s socketManager binarySerializer (sc_disconnected_at sc))
          (ProcessTelemetry socketManager binarySerializer (sc_frames sc)
             (sc_loop_end sc))) f o evs ->
  runs (ServeBinaryWs s config sc r) f o
    (events (log_client_certificate r ∅) ++ [EvUpgraded conn] ++ evs).
Proof.
  intros Hup Hrest. unfold ServeBinaryWs.
  apply (runs_bind _ _ (fun reg => reg) _ tt); [apply log_client_certificate_runs|].
  apply (runs_bind _ _ (fun reg => reg) _ (Some conn));
    [now apply runs_promoteToWebsocket_ok|].
  exact Hrest.
Qed.

(** X6. When the upgrade fails the handler reports the error once, logs
    it as websocket_promotion_error only if it is no HandshakeError, and
    returns: the identity is not extracted, so no request makes the
    handler panic here, and the Registry is as before.  The peer has the
    upgrader's HTTP error reply, before the report, only for a
    HandshakeError. *)
Theorem refused_upgrade_is_reported {E : External} (s : Server) (config : Config)
    (sc : Scenario) (r : Request) (reg : Registry) (cause : error)
    (isHandshakeError : bool) :
  sc_upgrade sc = UpgradeErr cause isHandshakeError ->
  ServeBinaryWs s config sc r reg =
    {| outcome := Returned tt;
       final_registry := reg;
       events :=
         events (log_client_certificate r reg) ++
         (if isHandshakeError then [EvUpgradeRefused cause; EvReportError cause]
          else [EvReportError cause;
                EvErrorLog "websocket_promotion_error" cause ∅]) |}.
Proof.
  intros Hup. rewrite log_client_certificate_events.
  revert reg. change (runs (ServeBinaryWs s config sc r) (fun reg => reg) (Returned tt)
    (events (log_client_certificate r ∅) ++
     (if isHandshakeError then [EvUpgradeRefused cause; EvReportError cause]
      else [EvReportError cause;
            EvErrorLog "websocket_promotion_error" cause ∅]))).
  unfold ServeBinaryWs.
  apply (runs_bind _ _ (fun reg => reg) (fun reg => reg) tt);
    [apply log_client_certificate_runs|].
  rewrite <- (app_nil_r (if isHandshakeError then _ else _)).
  apply (runs_bind _ _ (fun reg => reg) (fun reg => reg) None);
    [now apply runs_promoteToWebsocket_refused|apply runs_ret].
Qed.

Lemma refused_upgrade_is_reported_witness :
  map kind (events (ServeBinaryWs server_with_connectivity direct_tls refused_upgrade
                      bare_request {[ "uuid-9" := socket_9 ]})) =
    ["log client_certificate_not_found"; "refused"; "report"] /\
  map kind (events (ServeBinaryWs server_with_connectivity direct_tls broken_upgrade
                      bare_request {[ "uuid-9" := socket_9 ]})) =
    ["log client_certificate_not_found"; "report";
     "error websocket_promotion_error: websocket: client sent data before handshake is complete"].
Proof.
  split.
  - rewrite (refused_upgrade_is_reported (E := testExternal) server_with_connectivity
               direct_tls refused_upgrade bare_request {[ "uuid-9" := socket_9 ]}
               (ErrText "websocket: not a websocket handshake") true eq_refl).
    reflexivity.
  - rewrite (refused_upgrade_is_reported (E := testExternal) server_with_connectivity
               direct_tls broken_upgrade bare_request {[ "uuid-9" := socket_9 ]}
               (ErrText "websocket: client sent data before handshake is complete")
               false eq_refl).
    reflexivity.
Defined.

(** X7. A request without TLS state in direct TLS mode: the first
    statement of the handler guards the nil and logs
    client_certificate_not_found, but the extraction dereferences it.  So
    the extraction panics, and the handler, once the upgrade has
    succeeded, panics before anything is registered. *)
Theorem request_without_tls_state_panics {E : External} (s : Server) (config : Config)
    (sc : Scenario) (r : Request) (reg : Registry) :
  cfg_TLSPassThrough config = None ->
  TLS r = None ->
  extractIdentity r config = Panicked nil_dereference /\
  forall conn,
    sc_upgrade sc = UpgradeOk conn ->
    ServeBinaryWs s config sc r reg =
      {| outcome := Panicked nil_dereference;
         final_registry := reg;
         events := [EvLog "client_certificate_not_found" ∅; EvUpgraded conn] |}.
Proof.
  intros Hmode Htls.
  assert (Hid : extractIdentity r config = Panicked nil_dereference).
  { unfold extractIdentity, extractCert, extractCertFromTLS. now rewrite Hmode, Htls. }
  split; [exact Hid|]. intros conn Hup.
  assert (Hlogs : events (log_client_certificate r ∅) =
                  [EvLog "client_certificate_not_found" ∅]).
  { unfold log_client_certificate. now rewrite Htls. }
  revert reg. change (runs (ServeBinaryWs s config sc r) (fun reg => reg)
    (Panicked nil_dereference)
    ([EvLog "client_certificate_not_found" ∅] ++ [EvUpgraded conn] ++ [])).
  rewrite <- Hlogs. apply ServeBinaryWs_upgraded; [exact Hup|].
  rewrite Hid. apply runs_bind_panicked. apply runs_lift.
Qed.

Lemma request_without_tls_state_panics_witness :
  ServeBinaryWs server_with_connectivity direct_tls one_frame bare_request
    {[ "uuid-9" := socket_9 ]} =
    {| outcome := Panicked nil_dereference;
       final_registry := {[ "uuid-9" := socket_9 ]};
       events := [EvLog "client_certificate_not_found" ∅;
                  EvUpgraded {| ws_handle := 1 |}] |}.
Proof.
  apply (request_without_tls_state_panics (E := testExternal) server_with_connectivity
           direct_tls one_frame bare_request {[ "uuid-9" := socket_9 ]} eq_refl eq_refl).
  reflexivity.
Defined.

(** X8. When the upgrade has succeeded, the identity extraction has
    returned no identity and the connectivity topic is configured, the
    handler registers the manager and then panics in registerSocket, on
    the nil identity, before the deregistration is deferred: nothing is
    deregistered and the Registry keeps the entry. *)
Theorem register_panic_keeps_the_entry {E : External} (s : Server) (config : Config)
    (sc : Scenario) (r : Request) (reg : Registry) (conn : WebSocket)
    (err : option error) :
  sc_upgrade sc = UpgradeOk conn ->
  extractIdentity r config = Returned (None, err) ->
  is_Some (DispatchRules s !! connectitivityTopic) ->
  let sm := NewSocketManager sc None conn config in
  ServeBinaryWs s config sc r reg =
    {| outcome := Panicked nil_dereference;
       final_registry := <[sc_uuid sc := sm]> reg;
       events := events (log_client_certificate r reg) ++ [EvUpgraded conn] ++
                 identity_error_log err ++ [EvRegisterSocket sm] |} /\
  final_registry (ServeBinaryWs s config sc r reg) !! sc_uuid sc = Some sm /\
  forall sm', EvDeregisterSocket sm' ∉ events (ServeBinaryWs s config sc r reg).
Proof.
  intros Hup Hid Hrules sm.
  assert (Hrun : ServeBinaryWs s config sc r reg =
            {| outcome := Panicked nil_dereference;
               final_registry := <[sc_uuid sc := sm]> reg;
               events := events (log_client_certificate r reg) ++ [EvUpgraded conn] ++
                         identity_error_log err ++ [EvRegisterSocket sm] |}).
  { rewrite log_client_certificate_events. revert reg.
    change (runs (ServeBinaryWs s config sc r) (fun reg => <[sc_uuid sc := sm]> reg)
      (Panicked nil_dereference)
      (events (log_client_certificate r ∅) ++ [EvUpgraded conn] ++
       identity_error_log err ++ [EvRegisterSocket sm])).
    apply ServeBinaryWs_upgraded; [exact Hup|]. rewrite Hid.
    apply (runs_bind _ _ (fun reg => reg) _ (None, err) _ []); [apply runs_lift|].
    cbv beta iota.
    apply (runs_bind _ _ (fun reg => reg) _ tt); [apply runs_identity_error_log|].
    apply runs_bind_panicked. now apply registerSocket_panics. }
  split; [exact Hrun|]. rewrite Hrun. simpl. split; [apply lookup_insert_eq|].
  intros sm' Hin.
  apply elem_of_app in Hin. destruct Hin as [Hin|Hin].
  { exact (is_log_member _ _ (log_client_certificate_is_log r reg) Hin). }
  apply elem_of_cons in Hin. destruct Hin as [Heq|Hin]; [discriminate|].
  apply elem_of_app in Hin. destruct Hin as [Hin|Hin].
  { exact (is_log_member _ _ (identity_error_log_is_log err) Hin). }
  apply list_elem_of_singleton in Hin. discriminate.
Qed.

Lemma register_panic_keeps_the_entry_witness :
  final_registry (ServeBinaryWs server_with_connectivity rfc9440_mode one_frame
                    bare_request ∅) !! "uuid-1" =
    Some (NewSocketManager one_frame None {| ws_handle := 1 |} rfc9440_mode).
Proof.
  apply (register_panic_keeps_the_entry (E := testExternal) server_with_connectivity
           rfc9440_mode one_frame bare_request ∅ {| ws_handle := 1 |}
           (Some (ErrText "missing_certificate_error")) eq_refl eq_refl).
  vm_compute. eauto.
Defined.

(** The four ways the handler ends, and the registry it leaves. *)
Lemma ServeBinaryWs_registry {E : External} (s : Server) (config : Config)
    (sc : Scenario) (r : Request) (reg : Registry) :
  let run := ServeBinaryWs s config sc r reg in
  (outcome run = Returned tt /\ final_registry run = reg /\
   exists cause isHandshakeError, sc_upgrade sc = UpgradeErr cause isHandshakeError) \/
  ((exists reason, outcome run = Panicked reason) /\ final_registry run = reg) \/
  (exists sm, UUID sm = sc_uuid sc /\
     outcome run = Panicked nil_dereference /\
     final_registry run = <[sc_uuid sc := sm]> reg) \/
  (exists sm, UUID sm = sc_uuid sc /\
     outcome run = loop_outcome (sc_loop_end sc) /\
     final_registry run = delete (sc_uuid sc) (<[sc_uuid sc := sm]> reg)).
Proof.
  intros run. subst run.
  destruct (sc_upgrade sc) as [conn|cause isHandshakeError] eqn:Hup.
  2: { left.
       destruct (ServeBinaryWs_refused s config sc r cause isHandshakeError Hup)
         as (logs & _ & Hrun).
       split; [exact (runs_outcome _ _ _ _ reg Hrun)|].
       split; [exact (runs_registry _ _ _ _ reg Hrun)|].
       exists cause, isHandshakeError. reflexivity. }
  destruct (extractIdentity r config) as [[rid err]|reason] eqn:Hid.
  2: { right; left.
       destruct (ServeBinaryWs_identity_panics s config sc r conn reason Hup Hid)
         as (logs & _ & Hrun).
       split; [|exact (runs_registry _ _ _ _ reg Hrun)].
       exists reason. exact (runs_outcome _ _ _ _ reg Hrun). }
  set (sm := NewSocketManager sc rid conn config).
  assert (Hcases : can_emit s sm \/
            (rid = None /\ is_Some (DispatchRules s !! connectitivityTopic))).
  { destruct rid as [rid|].
    - left. left. simpl. eauto.
    - destruct (DispatchRules s !! connectitivityTopic) eqn:Hrules.
      + right. eauto.
      + left. now right. }
  destruct Hcases as [Hcan|[-> Hrules]].
  - right; right; right. exists sm.
    destruct (ServeBinaryWs_runs s config sc r conn rid err Hup Hid Hcan)
      as (logs & cs & tele & ds & _ & _ & _ & _ & Hrun).
    split; [reflexivity|].
    split; [exact (runs_outcome _ _ _ _ reg Hrun)|exact (runs_registry _ _ _ _ reg Hrun)].
  - right; right; left. exists sm.
    destruct (ServeBinaryWs_register_panics s config sc r conn err Hup Hid Hrules)
      as (logs & _ & Hrun).
    split; [reflexivity|].
    split; [exact (runs_outcome _ _ _ _ reg Hrun)|exact (runs_registry _ _ _ _ reg Hrun)].
Qed.

(** X9. The handler touches no entry of the Registry but its own: the
    lookup of every other uuid is after the handler what it was before,
    however the handler ends.  When it returns and its uuid was free
    before, the Registry is after the handler what it was before. *)
Theorem handler_touches_only_its_entry {E : External} (s : Server) (config : Config)
    (sc : Scenario) (r : Request) (reg : Registry) :
  (forall uuid, uuid <> sc_uuid sc ->
     final_registry (ServeBinaryWs s config sc r reg) !! uuid = reg !! uuid) /\
  (outcome (ServeBinaryWs s config sc r reg) = Returned tt ->
   reg !! sc_uuid sc = None ->
   final_registry (ServeBinaryWs s config sc r reg) = reg).
Proof.
  destruct (ServeBinaryWs_registry s config sc r reg)
    as [(Ho & Hr & _)|[(_ & Hr)|[(sm & _ & Ho & Hr)|(sm & _ & Ho & Hr)]]];
    rewrite Hr; split.
  - reflexivity.
  - reflexivity.
  - reflexivity.
  - reflexivity.
  - intros uuid Hne. now rewrite lookup_insert_ne.
  - rewrite Ho. discriminate.
  - intros uuid Hne. now rewrite lookup_delete_ne, lookup_insert_ne.
  - intros _ Hfree. now apply delete_insert_id.
Qed.

Lemma handler_touches_only_its_entry_witness :
  final_registry (ServeBinaryWs server_with_connectivity direct_tls one_frame
                    vehicle_request {[ "uuid-9" := socket_9 ]}) !! "uuid-9" =
    Some socket_9 /\
  final_registry (ServeBinaryWs server_with_connectivity direct_tls one_frame
                    vehicle_request {[ "uuid-9" := socket_9 ]}) =
    {[ "uuid-9" := socket_9 ]}.
Proof.
  split.
  - rewrite (proj1 (handler_touches_only_its_entry (E := testExternal)
                      server_with_connectivity direct_tls one_frame vehicle_request
                      {[ "uuid-9" := socket_9 ]}) "uuid-9"); [reflexivity|discriminate].
  - apply (proj2 (handler_touches_only_its_entry (E := testExternal)
                    server_with_connectivity direct_tls one_frame vehicle_request
                    {[ "uuid-9" := socket_9 ]})); reflexivity.
Defined.

(** * The logging wrapper *)

(** X10. [serveHTTPWithLogs] logs request_start, with the uuid, the
    method, the path and the remote address, before anything the wrapped
    handler does, and has the handler's outcome and registry.  When the
    handler returns it logs request_end after everything the handler did,
    with the same four fields and duration_ms; when the handler panics,
    request_end is not logged. *)
Theorem request_log_brackets_the_handler (h : M unit) (line : RequestLine)
    (lsc : LogScenario) (reg : Registry) :
  let info : gmap string LogValue :=
    {[ "uuid" := LStr (log_uuid lsc);
       "method" := LStr (Method line);
       "urlPath" := LStr (URL_Path line);
       "remote_ip" := LStr (RemoteAddr line) ]} in
  let run := serveHTTPWithLogs h line lsc reg in
  outcome run = outcome (h reg) /\
  final_registry run = final_registry (h reg) /\
  (outcome (h reg) = Returned tt ->
   events run =
     [EvLog "request_start" info] ++ events (h reg) ++
     [EvLog "request_end" (<["duration_ms" := LInt (log_duration_ms lsc)]> info)]) /\
  (forall reason, outcome (h reg) = Panicked reason ->
   events run = [EvLog "request_start" info] ++ events (h reg)) /\
  info !! "duration_ms" = None /\
  (forall key, key <> "duration_ms" ->
     (<["duration_ms" := LInt (log_duration_ms lsc)]> info) !! key = info !! key).
Proof.
  intros info run. subst run.
  unfold serveHTTPWithLogs, ActivityLog, mbind, M_bind, bind. cbv zeta. simpl.
  destruct (outcome (h reg)) as [[]|reason] eqn:Hh; simpl.
  - repeat split; try reflexivity; try discriminate.
    intros key Hne. now apply lookup_insert_ne.
  - repeat split; try reflexivity; try discriminate.
    intros key Hne. now apply lookup_insert_ne.
Qed.

Lemma request_log_brackets_the_handler_witness :
  map kind (events (serveHTTPWithLogs
                      (ServeBinaryWs server_without_connectivity direct_tls one_frame
                         vehicle_request)
                      get_root one_minute ∅)) =
    ["log request_start";
     "log client_certificate"; "log chains_size"; "log chain_subject_common_name";
     "upgraded"; "register uuid-1"; "loop starts"; "produce V to kafka";
     "loop exits"; "deregister uuid-1";
     "log request_end"] /\
  map kind (events (serveHTTPWithLogs
                      (ServeBinaryWs server_without_connectivity direct_tls
                         one_frame_then_panic vehicle_request)
                      get_root one_minute ∅)) =
    ["log request_start";
     "log client_certificate"; "log chains_size"; "log chain_subject_common_name";
     "upgraded"; "register uuid-1"; "loop starts"; "produce V to kafka";
     "loop exits"; "deregister uuid-1"].
Proof.
  split.
  - rewrite (proj1 (proj2 (proj2 (request_log_brackets_the_handler
               (ServeBinaryWs server_without_connectivity direct_tls one_frame
                  vehicle_request) get_root one_minute ∅))));
      reflexivity.
  - rewrite (proj1 (proj2 (proj2 (proj2 (request_log_brackets_the_handler
               (ServeBinaryWs server_without_connectivity direct_tls
                  one_frame_then_panic vehicle_request) get_root one_minute ∅))))
               "read loop");
      reflexivity.
Defined.

(** * The certificate log of the handler *)

Lemma runs_log_chains_imap (chains : list (list Certificate)) (idx : nat) :
  runs (log_chains idx chains) (fun reg => reg) (Returned tt)
    (imap (fun i => chain_log (idx + i)) chains).
Proof.
  revert idx. induction chains as [|chain rest IH]; intros idx; simpl.
  - apply runs_ret.
  - rewrite Nat.add_0_r.
    apply (runs_bind _ _ (fun reg => reg) (fun reg => reg) tt _ [chain_log idx chain]);
      [apply runs_emit|].
    rewrite (imap_ext _ (fun i => chain_log (S idx + i))).
    + apply IH.
    + intros i chain' _. simpl. f_equal. lia.
Qed.

(** X11. With a TLS state and a peer chain that is not empty, the handler
    first logs the certificate at the head of the peer chain, then the
    number of verified chains, then one line per verified chain, in order,
    with its index and the subject common names joined by a bar.  In
    direct TLS mode the identity is taken from the last certificate of the
    same chain, not from the logged one. *)
Theorem logged_certificate_is_the_first {E : External} (r : Request) (config : Config)
    (reg : Registry) (cs : ConnectionState) (first : Certificate)
    (others : list Certificate) :
  cfg_TLSPassThrough config = None ->
  TLS r = Some cs ->
  PeerCertificates cs = first :: others ->
  log_client_certificate r reg =
    {| outcome := Returned tt;
       final_registry := reg;
       events :=
         EvLog "client_certificate"
           {[ "Subject" := LStr (CommonName (Subject first));
              "Issuer" := LStr (CommonName (Issuer first));
              "NotBefore" := LStr (NotBefore first);
              "NotAfter" := LStr (NotAfter first) ]} ::
         EvLog "chains_size"
           {[ "chains_size" := LInt (Z.of_nat (length (VerifiedChains cs))) ]} ::
         imap chain_log (VerifiedChains cs) |} /\
  exists cert,
    last (first :: others) = Some cert /\
    extractCert r config = Returned (Some cert, None).
Proof.
  intros Hmode Htls Hchain. split.
  - revert reg.
    change (runs (log_client_certificate r) (fun reg => reg) (Returned tt)
      ([EvLog "client_certificate"
          {[ "Subject" := LStr (CommonName (Subject first));
             "Issuer" := LStr (CommonName (Issuer first));
             "NotBefore" := LStr (NotBefore first);
             "NotAfter" := LStr (NotAfter first) ]}] ++
       [EvLog "chains_size"
          {[ "chains_size" := LInt (Z.of_nat (length (VerifiedChains cs))) ]}] ++
       imap chain_log (VerifiedChains cs))).
    unfold log_client_certificate. rewrite Htls, Hchain.
    apply (runs_bind _ _ (fun reg => reg) (fun reg => reg) tt); [apply runs_emit|].
    apply (runs_bind _ _ (fun reg => reg) (fun reg => reg) tt); [apply runs_emit|].
    apply (runs_log_chains_imap (VerifiedChains cs) 0).
  - destruct (last (first :: others)) as [cert|] eqn:Hlast.
    2: { apply last_None in Hlast. discriminate. }
    exists cert. split; [reflexivity|].
    unfold extractCert, extractCertFromTLS. rewrite Hmode, Htls, Hchain.
    rewrite last_lookup in Hlast. simpl length in *. simpl Nat.pred in Hlast.
    replace (S (length others) - 1)%nat with (length others) by lia.
    simpl Nat.eqb. cbv iota. now rewrite Hlast.
Qed.

Lemma logged_certificate_is_the_first_witness :
  map kind (events (log_client_certificate vehicle_request ∅)) =
    ["log client_certificate"; "log chains_size"; "log chain_subject_common_name"] /\
  hd_error (events (log_client_certificate vehicle_request ∅)) =
    Some (EvLog "client_certificate"
            {[ "Subject" := LStr "vehicle_device";
               "Issuer" := LStr "root";
               "NotBefore" := LStr (NotBefore issuing_ca);
               "NotAfter" := LStr (NotAfter issuing_ca) ]}) /\
  extractCert vehicle_request direct_tls = Returned (Some vehicle_cert, None).
Proof.
  destruct (logged_certificate_is_the_first (E := testExternal) vehicle_request direct_tls
              ∅ {| PeerCertificates := [issuing_ca; vehicle_cert];
                   VerifiedChains := [[vehicle_cert; issuing_ca]] |}
              issuing_ca [vehicle_cert] eq_refl eq_refl eq_refl)
    as (Hlog & cert & Hlast & Hcert).
  rewrite Hlog. injection Hlast as <-.
  split; [reflexivity|]. split; [reflexivity|exact Hcert].
Defined.

(** * More on the connectivity emitter *)

Lemma build_error_dispatch {E : External} (s : Server) (sm : SocketManager)
    (serializer : BinarySerializer) (status : ConnectivityEvent) (now : Timestamp)
    (producers : list Producer) (rid : RequestIdentity) (err : error) :
  DispatchRules s !! connectitivityTopic = Some producers ->
  requestIdentity sm = Some rid ->
  connectivity_build_error sm serializer rid status now err ->
  runs (dispatchConnectivityEvent s sm serializer status now) (fun reg => reg)
    (Returned (Some err)) [].
Proof.
  intros Hrules Hid Hbuild reg. unfold dispatchConnectivityEvent.
  rewrite Hrules, Hid.
  destruct Hbuild as [Hm|[(payload & Hm & Hb)|(payload & message & Hm & Hb & Hr)]].
  - now rewrite Hm.
  - now rewrite Hm, Hb.
  - now rewrite Hm, Hb, Hr.
Qed.

(** X12. An error of the connectivity emission never stops register or
    deregister.  With the topic configured and an identity present, when
    the payload cannot be marshalled, the envelope cannot be serialized or
    the Record cannot be decoded, the Registry operation has been done,
    nothing is produced to any sink, and the error of the failing step is
    logged once, as connectivity_registeration_error or
    connectivity_deregisteration_error, with the device id and the
    event. *)
Theorem connectivity_errors_are_logged {E : External} (s : Server) (sm : SocketManager)
    (serializer : BinarySerializer) (now : Timestamp) (reg : Registry)
    (producers : list Producer) (rid : RequestIdentity) (err : error) :
  DispatchRules s !! connectitivityTopic = Some producers ->
  requestIdentity sm = Some rid ->
  (connectivity_build_error sm serializer rid ConnectivityEvent_CONNECTED now err ->
   registerSocket s sm serializer now reg =
     {| outcome := Returned tt;
        final_registry := <[UUID sm := sm]> reg;
        events :=
          [EvRegisterSocket sm;
           EvErrorLog "connectivity_registeration_error" err
             {[ "deviceID" := LStr (DeviceID rid);
                "event" := LEvent ConnectivityEvent_CONNECTED ]}] |}) /\
  (connectivity_build_error sm serializer rid ConnectivityEvent_DISCONNECTED now err ->
   deregisterSocket s sm serializer now reg =
     {| outcome := Returned tt;
        final_registry := delete (UUID sm) reg;
        events :=
          [EvDeregisterSocket sm;
           EvErrorLog "connectivity_deregisteration_error" err
             {[ "deviceID" := LStr (DeviceID rid);
                "event" := LEvent ConnectivityEvent_DISCONNECTED ]}] |}).
Proof.
  intros Hrules Hid. split; intros Hbuild.
  - pose proof (build_error_dispatch s sm serializer _ now producers rid err
                  Hrules Hid Hbuild) as Hdispatch.
    unfold registerSocket, mbind, M_bind, bind. cbv zeta. simpl.
    rewrite !Hdispatch. simpl. unfold log_connectivity_error. rewrite Hid. reflexivity.
  - pose proof (build_error_dispatch s sm serializer _ now producers rid err
                  Hrules Hid Hbuild) as Hdispatch.
    unfold deregisterSocket, mbind, M_bind, bind. cbv zeta. simpl.
    rewrite !Hdispatch. simpl. unfold log_connectivity_error. rewrite Hid. reflexivity.
Qed.

Lemma connectivity_errors_are_logged_witness :
  map kind (events (registerSocket (E := brokenExternal 0) server_with_connectivity
                      socket_1 serializer_1 (sc_connected_at one_frame) ∅)) =
    ["register uuid-1"; "error connectivity_registeration_error: proto: marshal failed"] /\
  map kind (events (registerSocket (E := brokenExternal 1) server_with_connectivity
                      socket_1 serializer_1 (sc_connected_at one_frame) ∅)) =
    ["register uuid-1";
     "error connectivity_registeration_error: flatbuffers: cannot serialize"] /\
  map kind (events (deregisterSocket (E := brokenExternal 2) server_with_connectivity
                      socket_1 serializer_1 (sc_disconnected_at one_frame)
                      {[ "uuid-1" := socket_1 ]})) =
    ["deregister uuid-1"; "error connectivity_deregisteration_error: decode_error"].
Proof.
  split; [|split].
  - rewrite (proj1 (connectivity_errors_are_logged (E := brokenExternal 0)
               server_with_connectivity socket_1 serializer_1 (sc_connected_at one_frame)
               ∅ [log_stub] vehicle_identity (ErrText "proto: marshal failed")
               eq_refl eq_refl)); [reflexivity|].
    left. reflexivity.
  - rewrite (proj1 (connectivity_errors_are_logged (E := brokenExternal 1)
               server_with_connectivity socket_1 serializer_1 (sc_connected_at one_frame)
               ∅ [log_stub] vehicle_identity (ErrText "flatbuffers: cannot serialize")
               eq_refl eq_refl)); [reflexivity|].
    right; left. eexists. split; reflexivity.
  - rewrite (proj2 (connectivity_errors_are_logged (E := brokenExternal 2)
               server_with_connectivity socket_1 serializer_1
               (sc_disconnected_at one_frame) {[ "uuid-1" := socket_1 ]}
               [log_stub] vehicle_identity (ErrText "decode_error")
               eq_refl eq_refl)); [reflexivity|].
    right; right. do 2 eexists. repeat split.
Defined.

(** X13. The envelope of every connectivity Record that register or
    deregister produces has the connection's UUID as its txid, and the
    Record is decoded with that UUID as its connection id.  Its created_at
    is the Unix seconds of the timestamp cut to 32 bits: always in the
    range of a uint32, equal to the seconds as long as they fit, and
    wrapped around beyond. *)
Theorem connectivity_envelope_txid_and_time {E : External} (s : Server)
    (sm : SocketManager) (serializer : BinarySerializer) (now : Timestamp)
    (reg : Registry) (dispatcher : Producer) (record : Record_) :
  EvProduce dispatcher record ∈ events (registerSocket s sm serializer now reg) \/
  EvProduce dispatcher record ∈ events (deregisterSocket s sm serializer now reg) ->
  exists streamMessage message,
    ToBytes streamMessage = Ok message /\
    NewRecord serializer message (UUID sm) (transmitDecodedRecords sm) = Ok record /\
    TXID streamMessage = bytes_of (UUID sm) /\
    (0 <= sm_CreatedAt streamMessage < 2 ^ 32)%Z /\
    sm_CreatedAt streamMessage = (seconds now mod 2 ^ 32)%Z /\
    ((0 <= seconds now < 2 ^ 32)%Z -> sm_CreatedAt streamMessage = seconds now).
Proof.
  intros Hin.
  assert (Hwraps : exists status, wraps_connectivity sm serializer status now record).
  { destruct Hin as [Hin|Hin].
    - destruct (emission_events s sm serializer ConnectivityEvent_CONNECTED now
                  "connectivity_registeration_error" _ _ _ (runs_RegisterSocket sm))
        as (evs & Hevs & Hevents).
      unfold registerSocket in Hin. rewrite Hevents in Hin.
      apply elem_of_cons in Hin. destruct Hin as [Heq|Hin]; [discriminate|].
      destruct Hevs as [->|Hemission]; [now apply elem_of_nil in Hin|].
      eexists. eapply emission_produce; eassumption.
    - destruct (emission_events s sm serializer ConnectivityEvent_DISCONNECTED now
                  "connectivity_deregisteration_error" _ _ _ (runs_DeregisterSocket sm))
        as (evs & Hevs & Hevents).
      unfold deregisterSocket in Hin. rewrite Hevents in Hin.
      apply elem_of_cons in Hin. destruct Hin as [Heq|Hin]; [discriminate|].
      destruct Hevs as [->|Hemission]; [now apply elem_of_nil in Hin|].
      eexists. eapply emission_produce; eassumption. }
  destruct Hwraps as (status & rid & payload & message & _ & _ & Hmessage & Hrecord).
  eexists. exists message. split; [exact Hmessage|]. split; [exact Hrecord|].
  simpl. split; [reflexivity|]. split; [apply Z.mod_pos_bound; lia|].
  split; [reflexivity|]. intros Hfits. now apply Z.mod_small.
Qed.

Lemma connectivity_envelope_txid_and_time_witness :
  exists streamMessage message,
    ToBytes streamMessage = Ok message /\
    NewRecord serializer_1 message "uuid-1" false = Ok connected_record /\
    TXID streamMessage = bytes_of "uuid-1" /\
    sm_CreatedAt streamMessage = 5%Z.
Proof.
  destruct (connectivity_envelope_txid_and_time (E := testExternal)
              server_with_connectivity socket_1 serializer_1 after_2106 ∅ log_stub
              connected_record)
    as (streamMessage & message & Hmessage & Hrecord & Htxid & _ & Htime & _).
  - left. vm_compute. repeat constructor.
  - exists streamMessage, message.
    split; [exact Hmessage|]. split; [exact Hrecord|]. split; [exact Htxid|].
    rewrite Htime. reflexivity.
Defined.

(** * More on the ack router *)

Lemma handleAck_events (s : Server) (record : Record_) (reg : Registry) :
  events (handleAck s record reg) =
    match Serializer record with
    | Some _ =>
        match reg !! SocketID record with
        | Some socket =>
            [EvCounterInc "reliable_ack" (ack_labels s record);
             EvRespondToVehicle socket record None]
        | None => [EvCounterInc "reliable_ack_miss" (ack_labels s record)]
        end
    | None => []
    end.
Proof.
  unfold handleAck. destruct (Serializer record); [|reflexivity].
  unfold mbind, M_bind, bind, GetSocket. simpl.
  destruct (reg !! SocketID record); reflexivity.
Qed.

Lemma handleAck_responses (s : Server) (record : Record_) (reg : Registry) :
  responses (events (handleAck s record reg)) = option_list (routed reg record).
Proof.
  rewrite handleAck_events. unfold routed.
  destruct (Serializer record); [|reflexivity].
  destruct (reg !! SocketID record); reflexivity.
Qed.

(** X14. The ack router writes only to registered sockets.  The calls of
    respondToVehicle it makes are, in the order of the channel, one for
    each record that has a serializer and whose connection id the Registry
    holds; each goes to the manager registered under that id, carries the
    record and the nil error. *)
Theorem acks_go_to_registered_sockets (s : Server) (ackChan : list Record_)
    (reg : Registry) :
  responses (events (handleAcks s ackChan reg)) = omap (routed reg) ackChan /\
  forall socket record err,
    (socket, record, err) ∈ responses (events (handleAcks s ackChan reg)) ->
    record ∈ ackChan /\
    is_Some (Serializer record) /\
    reg !! SocketID record = Some socket /\
    err = None.
Proof.
  assert (Hall : responses (events (handleAcks s ackChan reg)) =
                 omap (routed reg) ackChan).
  { induction ackChan as [|record rest IH]; [reflexivity|].
    rewrite handleAcks_cons. unfold responses in *. rewrite omap_app.
    fold (responses (events (handleAck s record reg))).
    rewrite handleAck_responses, IH. simpl.
    destruct (routed reg record); reflexivity. }
  split; [exact Hall|].
  intros socket record err Hin. rewrite Hall in Hin.
  apply list_elem_of_omap in Hin. destruct Hin as (record' & Hin & Hrouted).
  unfold routed in Hrouted.
  destruct (Serializer record') as [serializer|] eqn:Hserializer; [|discriminate].
  destruct (reg !! SocketID record') as [socket'|] eqn:Hsocket; [|discriminate].
  injection Hrouted as <- <- <-. rewrite Hserializer. eauto.
Qed.

Lemma acks_go_to_registered_sockets_witness :
  responses (events (handleAcks server_with_connectivity
                       [bare_record; acked_record; unlisted_record]
                       {[ "uuid-1" := socket_1 ]})) =
    [(socket_1, acked_record, None); (socket_1, unlisted_record, None)] /\
  (acked_record ∈ [bare_record; acked_record; unlisted_record] /\
   is_Some (Serializer acked_record) /\
   ({[ "uuid-1" := socket_1 ]} : Registry) !! SocketID acked_record = Some socket_1 /\
   @None error = None).
Proof.
  split.
  - rewrite (proj1 (acks_go_to_registered_sockets server_with_connectivity
                      [bare_record; acked_record; unlisted_record]
                      {[ "uuid-1" := socket_1 ]})).
    reflexivity.
  - apply (proj2 (acks_go_to_registered_sockets server_with_connectivity
                    [bare_record; acked_record; unlisted_record]
                    {[ "uuid-1" := socket_1 ]})).
    vm_compute. repeat constructor.
Defined.

(** X15. The ack router drops the records that have no serializer: they
    cause no event at all.  For the others it increments exactly one
    counter each, in the order of the channel: reliable_ack when the
    Registry holds the connection id, reliable_ack_miss when it does not.
    The loop never panics and never changes the Registry. *)
Theorem acks_without_serializer_are_dropped (s : Server) (ackChan : list Record_)
    (reg : Registry) :
  events (handleAcks s ackChan reg) = events (handleAcks s (acknowledged ackChan) reg) /\
  map fst (increments (events (handleAcks s ackChan reg))) =
    map (counter_for reg) (acknowledged ackChan) /\
  outcome (handleAcks s ackChan reg) = Returned tt /\
  final_registry (handleAcks s ackChan reg) = reg.
Proof.
  assert (Hcons : forall record rest,
            acknowledged (record :: rest) =
              match Serializer record with
              | Some _ => record :: acknowledged rest
              | None => acknowledged rest
              end).
  { intros record rest. unfold acknowledged. simpl.
    destruct (Serializer record); reflexivity. }
  assert (Happ : forall evs1 evs2,
            increments (evs1 ++ evs2) = increments evs1 ++ increments evs2).
  { intros evs1 evs2. apply omap_app. }
  split; [|split; [|apply handleAcks_registry]].
  - induction ackChan as [|record rest IH]; [reflexivity|].
    rewrite Hcons. destruct (Serializer record) as [serializer|] eqn:Hserializer.
    + now rewrite !handleAcks_cons, IH.
    + rewrite handleAcks_cons, handleAck_events, Hserializer. exact IH.
  - induction ackChan as [|record rest IH]; [reflexivity|].
    rewrite handleAcks_cons, Happ, map_app, IH, handleAck_events, Hcons.
    destruct (Serializer record); [|reflexivity].
    assert (Hcounter : counter_for reg record =
              match reg !! SocketID record with
              | Some _ => "reliable_ack"
              | None => "reliable_ack_miss"
              end) by reflexivity.
    change (map (counter_for reg) (record :: acknowledged rest))
      with (counter_for reg record :: map (counter_for reg) (acknowledged rest)).
    rewrite Hcounter. destruct (reg !! SocketID record); reflexivity.
Qed.

(** X16. Every increment of the ack router is made on one of the two
    counters the server registers, reliable_ack and reliable_ack_miss, and
    with exactly the label names that counter was registered with; the
    labels are the tx_type of a record of the channel and its dispatcher,
    the empty string when the tx_type has no reliable-ack source. *)
Theorem increments_match_the_registered_counters (s : Server)
    (ackChan : list Record_) (reg : Registry) (counter : string)
    (labels : gmap string string) :
  (counter, labels) ∈ increments (events (handleAcks s ackChan reg)) ->
  exists registered record,
    (registered = reliableAckCount registerServerMetrics \/
     registered = reliableAckMissCount registerServerMetrics) /\
    counter_Name registered = counter /\
    dom labels = list_to_set (counter_Labels registered) /\
    record ∈ ackChan /\
    labels !! "record_type" = Some (TxType record) /\
    labels !! "dispatcher" = Some (default "" (reliableAckSources s !! TxType record)).
Proof.
  induction ackChan as [|record rest IH]; intros Hin.
  { now apply elem_of_nil in Hin. }
  rewrite handleAcks_cons in Hin. unfold increments in Hin.
  rewrite omap_app in Hin. apply elem_of_app in Hin. destruct Hin as [Hin|Hin].
  - rewrite handleAck_events in Hin.
    assert (Hlabels : dom (ack_labels s record) =
              list_to_set ["record_type"; "dispatcher"] /\
              ack_labels s record !! "record_type" = Some (TxType record) /\
              ack_labels s record !! "dispatcher" =
                Some (default "" (reliableAckSources s !! TxType record))).
    { unfold ack_labels. split; [|split].
      - rewrite dom_insert_L, dom_singleton_L. simpl. set_solver.
      - apply lookup_insert_eq.
      - rewrite lookup_insert_ne by discriminate. apply lookup_singleton_eq. }
    destruct Hlabels as (Hdom & Htype & Hdispatcher).
    destruct (Serializer record); [|now apply elem_of_nil in Hin].
    destruct (reg !! SocketID record); simpl in Hin;
      apply list_elem_of_singleton in Hin; injection Hin as -> ->.
    + exists (reliableAckCount registerServerMetrics), record.
      split; [now left|]. split; [reflexivity|]. split; [exact Hdom|].
      split; [apply elem_of_cons; now left|]. split; assumption.
    + exists (reliableAckMissCount registerServerMetrics), record.
      split; [now right|]. split; [reflexivity|]. split; [exact Hdom|].
      split; [apply elem_of_cons; now left|]. split; assumption.
  - destruct (IH Hin) as (registered & record' & Hreg & Hname & Hdom & Hrec & Hrest).
    exists registered, record'. repeat (split; [assumption|]).
    split; [apply elem_of_cons; now right|exact Hrest].
Qed.

Lemma increments_match_the_registered_counters_witness :
  exists registered record,
    (registered = reliableAckCount registerServerMetrics \/
     registered = reliableAckMissCount registerServerMetrics) /\
    counter_Name registered = "reliable_ack_miss" /\
    dom (ack_labels server_with_connectivity unlisted_record) =
      list_to_set (counter_Labels registered) /\
    record ∈ [acked_record; unlisted_record] /\
    ack_labels server_with_connectivity unlisted_record !! "record_type" =
      Some (TxType record) /\
    ack_labels server_with_connectivity unlisted_record !! "dispatcher" =
      Some (default "" (reliableAckSources server_with_connectivity !! TxType record)).
Proof.
  apply (increments_match_the_registered_counters server_with_connectivity
           [acked_record; unlisted_record] ∅ "reliable_ack_miss"
           (ack_labels server_with_connectivity unlisted_record)).
  vm_compute. repeat constructor.
Defined.

(** X17. Acknowledgements follow the registration.  For a record with a
    serializer whose connection id is the uuid of a manager: run on the
    Registry that registerSocket leaves, the ack router increments
    reliable_ack and writes to that manager; run on the Registry that
    deregisterSocket leaves, or that the handler of the connection leaves
    when it returns after a successful upgrade, it increments
    reliable_ack_miss and writes nothing. *)
Theorem acks_follow_the_registration {E : External} (s : Server) (sm : SocketManager)
    (serializer : BinarySerializer) (now : Timestamp) (reg : Registry)
    (record : Record_) (attached : BinarySerializer) :
  Serializer record = Some attached ->
  (SocketID record = UUID sm -> can_emit s sm ->
   events (handleAck s record (final_registry (registerSocket s sm serializer now reg))) =
     [EvCounterInc "reliable_ack" (ack_labels s record);
      EvRespondToVehicle sm record None] /\
   events (handleAck s record
             (final_registry (deregisterSocket s sm serializer now reg))) =
     [EvCounterInc "reliable_ack_miss" (ack_labels s record)]) /\
  (forall config sc r conn,
     sc_upgrade sc = UpgradeOk conn ->
     SocketID record = sc_uuid sc ->
     outcome (ServeBinaryWs s config sc r reg) = Returned tt ->
     events (handleAck s record (final_registry (ServeBinaryWs s config sc r reg))) =
       [EvCounterInc "reliable_ack_miss" (ack_labels s record)]).
Proof.
  intros Hattached. split.
  - intros Hid Hcan.
    destruct (registerSocket_runs s sm serializer now Hcan) as (cs & _ & Hregister).
    destruct (deregisterSocket_runs s sm serializer now Hcan) as (ds & _ & Hderegister).
    rewrite (runs_registry _ _ _ _ reg Hregister).
    rewrite (runs_registry _ _ _ _ reg Hderegister).
    rewrite !handleAck_events, Hattached, Hid.
    now rewrite lookup_insert_eq, lookup_delete_eq.
  - intros config sc r conn Hup Hid Hreturned.
    rewrite handleAck_events, Hattached, Hid.
    destruct (ServeBinaryWs_registry s config sc r reg)
      as [(_ & _ & cause & b & Hrefused)
         |[((reason & Ho) & _)
          |[(sm' & _ & Ho & _)|(sm' & _ & _ & Hr)]]].
    + congruence.
    + congruence.
    + congruence.
    + now rewrite Hr, lookup_delete_eq.
Qed.

Lemma acks_follow_the_registration_witness :
  (events (handleAck server_with_connectivity acked_record
             (final_registry (registerSocket server_with_connectivity socket_1
                                serializer_1 (sc_connected_at one_frame) ∅))) =
     [EvCounterInc "reliable_ack" (ack_labels server_with_connectivity acked_record);
      EvRespondToVehicle socket_1 acked_record None] /\
   events (handleAck server_with_connectivity acked_record
             (final_registry (deregisterSocket server_with_connectivity socket_1
                                serializer_1 (sc_disconnected_at one_frame)
                                {[ "uuid-1" := socket_1 ]}))) =
     [EvCounterInc "reliable_ack_miss"
        (ack_labels server_with_connectivity acked_record)]) /\
  events (handleAck server_with_connectivity acked_record
            (final_registry (ServeBinaryWs server_with_connectivity direct_tls one_frame
                               vehicle_request ∅))) =
    [EvCounterInc "reliable_ack_miss" (ack_labels server_with_connectivity acked_record)].
Proof.
  assert (Hcan : can_emit server_with_connectivity socket_1).
  { left. exists vehicle_identity. reflexivity. }
  split; [split|].
  - exact (proj1 (proj1 (acks_follow_the_registration (E := testExternal)
                           server_with_connectivity socket_1 serializer_1
                           (sc_connected_at one_frame) ∅ acked_record serializer_1
                           eq_refl) eq_refl Hcan)).
  - exact (proj2 (proj1 (acks_follow_the_registration (E := testExternal)
                           server_with_connectivity socket_1 serializer_1
                           (sc_disconnected_at one_frame) {[ "uuid-1" := socket_1 ]}
                           acked_record serializer_1 eq_refl) eq_refl Hcan)).
  - refine (proj2 (acks_follow_the_registration (E := testExternal)
                     server_with_connectivity socket_1 serializer_1
                     (sc_connected_at one_frame) ∅ acked_record serializer_1 eq_refl)
              direct_tls one_frame vehicle_request {| ws_handle := 1 |} eq_refl eq_refl _).
    reflexivity.
Defined.
